(** * Upload reconciliation view ([src/example.py])

    A shallow embedding of [UploadView] — the cadence gate
    ([__days_to_next_upload], [__check_upload_allow]), the [get] handler and
    the [post] handler with its parse / serialise / re-parse / delete
    pipeline — together with the properties the specification states about
    it.

    Python values are modelled as follows.
    - [int] is [Z].
    - [str] is [list ascii]: the strings of code points below 256.
    - Aware [datetime] values are [Z] microseconds since the epoch (UTC);
      a [timedelta] is a [Z] number of microseconds.
    - The database tables behind [Project.objects] and [Upload.objects] are
      lists of rows.
    - Exceptions are an error monad over the mutable world.

    Outside the model: the limit [int()] puts on the number of digits, the
    range of [datetime] and of the database's integer columns, and a failure
    of [Upload.save()]. Rows with equal timestamps keep their table order
    under [order_by]. *)

From Stdlib Require Import ZArith Ascii String.
From stdpp Require Import base tactics option list numbers strings pretty sorting.

Local Open Scope Z_scope.

(** ** Python strings *)

Module Py.

Abbreviation str := (list ascii).

(** A string literal of the source. *)
Definition lit (s : string) : str := list_ascii_of_string s.

(** The literal [s] between double quotes (character 34; character 92 is
    the backslash). *)
Definition quoted (s : string) : str := "034"%char :: lit s ++ ["034"%char].

(** [i] clamped the way a slice bound is: negative bounds count from the
    end of a sequence of length [n]. *)
Definition slice_bound (n i : Z) : Z :=
  if i <? 0 then Z.max 0 (i + n) else Z.min i n.

(** [s[lo:hi]] *)
Definition slice {A} (lo hi : Z) (s : list A) : list A :=
  let n := Z.of_nat (length s) in
  let l := slice_bound n lo in
  let h := slice_bound n hi in
  take (Z.to_nat (h - l)) (drop (Z.to_nat l) s).

(** [s.split(c)] for a one-character separator [c]. *)
Fixpoint split (c : ascii) (s : str) : list str :=
  match s with
  | [] => [[]]
  | x :: r =>
      if Ascii.eqb x c then [] :: split c r
      else match split c r with
           | h :: t => (x :: h) :: t
           | [] => [[x]]
           end
  end.

(** White space as [int()] sees it, among the code points below 256: tab
    to carriage return, the space, and the two that [int()] turns into a
    space, U+0085 and U+00A0. The separators U+001C to U+001F are white
    space for [str.isspace] but not for [int()]. *)
Definition is_space (c : ascii) : bool :=
  let n := N_of_ascii c in
  ((9 <=? n) && (n <=? 13) || (n =? 32) || (n =? 133) || (n =? 160))%N.

Fixpoint lstrip (s : str) : str :=
  match s with
  | c :: r => if is_space c then lstrip r else s
  | [] => []
  end.

Definition strip (s : str) : str := reverse (lstrip (reverse (lstrip s))).

Definition digit_value (c : ascii) : option Z :=
  let n := N_of_ascii c in
  if ((48 <=? n) && (n <=? 57))%N then Some (Z.of_N n - 48) else None.

(** The digits of a decimal literal, most significant first, with the
    accumulated value [acc]; [after_digit] tells whether the previous
    character was a digit, which is where an underscore may stand. *)
Fixpoint int_digits (after_digit : bool) (acc : Z) (s : str) : option Z :=
  match s with
  | [] => if after_digit then Some acc else None
  | c :: r =>
      match digit_value c with
      | Some d => int_digits true (10 * acc + d) r
      | None =>
          if Ascii.eqb c "_" && after_digit
          then match r with
               | [] => None
               | _ => int_digits false acc r
               end
          else None
      end
  end.

(** [int(s)]: [None] stands for [ValueError]. *)
Definition int (s : str) : option Z :=
  match strip s with
  | c :: r =>
      if Ascii.eqb c "-" then Z.opp <$> int_digits false 0 r
      else if Ascii.eqb c "+" then int_digits false 0 r
      else int_digits false 0 (c :: r)
  | [] => None
  end.

(** [str(n)] for an [int]: the decimal numeral, with a minus sign for a
    negative number. *)
Definition decimal (n : Z) : str := lit (pretty n).

End Py.

(** ** The [json] module, on the values the view serialises

    [json.dumps] of a list of strings and [json.loads] of an object whose
    members are lists of strings. *)

Module Json.

Import Py.

Definition hex_digit (n : N) : ascii :=
  if (n <? 10)%N then ascii_of_N (48 + n) else ascii_of_N (87 + n).

(** [ESCAPE_DCT] and the [\uXXXX] fallback of [py_encode_basestring_ascii]. *)
Definition escape_char (c : ascii) : str :=
  let n := N_of_ascii c in
  if (n =? 34)%N then ["092"%char; "034"%char]
  else if (n =? 92)%N then ["092"%char; "092"%char]
  else if (n =? 8)%N then lit "\b"
  else if (n =? 12)%N then lit "\f"
  else if (n =? 10)%N then lit "\n"
  else if (n =? 13)%N then lit "\r"
  else if (n =? 9)%N then lit "\t"
  else if ((32 <=? n) && (n <=? 126))%N then [c]
  else lit "\u00" ++ [hex_digit (n / 16); hex_digit (n mod 16)].

Definition escape (s : str) : str := concat (escape_char <$> s).

(** [json.dumps(s)] for a string [s]. *)
Definition dumps_str (s : str) : str := "034"%char :: escape s ++ ["034"%char].

Fixpoint join (sep : str) (l : list str) : str :=
  match l with
  | [] => []
  | [x] => x
  | x :: r => x ++ sep ++ join sep r
  end.

(** [json.dumps(l)] for a list of strings [l], default separators. *)
Definition dumps (l : list str) : str :=
  lit "[" ++ join (lit ", ") (dumps_str <$> l) ++ lit "]".

Definition hex_value (c : ascii) : option N :=
  let n := N_of_ascii c in
  if ((48 <=? n) && (n <=? 57))%N then Some (n - 48)%N
  else if ((97 <=? n) && (n <=? 102))%N then Some (n - 87)%N
  else if ((65 <=? n) && (n <=? 70))%N then Some (n - 55)%N
  else None.

(** Code point of [\uXXXX]; code points from 256 on have no [ascii]. *)
Definition unicode_escape (a b c d : ascii) : option ascii :=
  h1 ← hex_value a; h2 ← hex_value b; h3 ← hex_value c; h4 ← hex_value d;
  let n := (((h1 * 16 + h2) * 16 + h3) * 16 + h4)%N in
  if (n <? 256)%N then Some (ascii_of_N n) else None.

Definition simple_escape (c : ascii) : option ascii :=
  let n := N_of_ascii c in
  if (n =? 34)%N then Some "034"%char
  else if (n =? 92)%N then Some "092"%char
  else if (n =? 47)%N then Some "/"%char
  else if (n =? 98)%N then Some "008"%char
  else if (n =? 102)%N then Some "012"%char
  else if (n =? 110)%N then Some "010"%char
  else if (n =? 114)%N then Some "013"%char
  else if (n =? 116)%N then Some "009"%char
  else None.

(** [py_scanstring] in strict mode, from just after the opening quote:
    the decoded string and the input after the closing quote. *)
Fixpoint scanstring (s : str) : option (str * str) :=
  match s with
  | [] => None
  | c :: r =>
      if Ascii.eqb c "034" then Some ([], r)
      else if Ascii.eqb c "092" then
        match r with
        | e :: r1 =>
            if Ascii.eqb e "u" then
              match r1 with
              | h1 :: h2 :: h3 :: h4 :: r2 =>
                  x ← unicode_escape h1 h2 h3 h4;
                  '(t, rest) ← scanstring r2;
                  Some (x :: t, rest)
              | _ => None
              end
            else
              x ← simple_escape e;
              '(t, rest) ← scanstring r1;
              Some (x :: t, rest)
        | [] => None
        end
      else if (N_of_ascii c <? 32)%N then None
      else '(t, rest) ← scanstring r; Some (c :: t, rest)
  end.

Definition is_ws (c : ascii) : bool :=
  let n := N_of_ascii c in ((n =? 32) || (n =? 9) || (n =? 10) || (n =? 13))%N.

Fixpoint skip_ws (s : str) : str :=
  match s with
  | c :: r => if is_ws c then skip_ws r else s
  | [] => []
  end.

(** The elements of an array after the first one has been announced by a
    quote: strings separated by commas up to the closing bracket. *)
Fixpoint array_items (fuel : nat) (s : str) : option (list str * str) :=
  match fuel with
  | O => None
  | S fuel =>
      match s with
      | q :: r =>
          if Ascii.eqb q "034" then
            '(x, r1) ← scanstring r;
            match skip_ws r1 with
            | d :: r2 =>
                if Ascii.eqb d "," then
                  '(xs, r3) ← array_items fuel (skip_ws r2);
                  Some (x :: xs, r3)
                else if Ascii.eqb d "]" then Some ([x], r2)
                else None
            | [] => None
            end
          else None
      | [] => None
      end
  end.

(** An array of strings, from just after the opening bracket. *)
Definition array (fuel : nat) (s : str) : option (list str * str) :=
  match skip_ws s with
  | c :: r => if Ascii.eqb c "]" then Some ([], r) else array_items fuel (c :: r)
  | [] => None
  end.

(** A [dict] keeps the position of a key's first insertion and the value of
    its last. *)
Fixpoint dict_set {V} (k : str) (v : V) (d : list (str * V)) : list (str * V) :=
  match d with
  | [] => [(k, v)]
  | (k', v') :: r =>
      if decide (k' = k) then (k, v) :: r else (k', v') :: dict_set k v r
  end.

Definition values {V} (d : list (str * V)) : list V := snd <$> d.

(** The members of an object after the first key has been announced. *)
Fixpoint object_items (fuel : nat) (acc : list (str * list str)) (s : str)
  : option (list (str * list str) * str) :=
  match fuel with
  | O => None
  | S fuel =>
      match s with
      | q :: r =>
          if Ascii.eqb q "034" then
            '(k, r1) ← scanstring r;
            match skip_ws r1 with
            | c :: r2 =>
                if Ascii.eqb c ":" then
                  match skip_ws r2 with
                  | b :: r3 =>
                      if Ascii.eqb b "[" then
                        '(v, r4) ← array (length r3) r3;
                        let acc := dict_set k v acc in
                        match skip_ws r4 with
                        | d :: r5 =>
                            if Ascii.eqb d "," then object_items fuel acc (skip_ws r5)
                            else if Ascii.eqb d "}" then Some (acc, r5)
                            else None
                        | [] => None
                        end
                      else None
                  | [] => None
                  end
                else None
            | [] => None
            end
          else None
      | [] => None
      end
  end.

(** [json.loads(s)] where [s] is an object whose members are arrays of
    strings; [None] stands for [JSONDecodeError] (and for documents outside
    that shape, which the view never produces: see [loads_serialize]). *)
Definition loads (s : str) : option (list (str * list str)) :=
  match skip_ws s with
  | c :: r =>
      if Ascii.eqb c "{" then
        match skip_ws r with
        | d :: r1 =>
            '(o, rest) ←
              (if Ascii.eqb d "}" then Some ([], r1)
               else object_items (length r) [] (d :: r1));
            match skip_ws rest with
            | [] => Some o
            | _ => None
            end
        | [] => None
        end
      else None
  | [] => None
  end.

End Json.

(** ** Exceptions and the effect monad *)

(** The exception classes the view can meet. [OtherException] is any other
    subclass of [Exception]; [NonException] is a [BaseException] outside
    [Exception] ([KeyboardInterrupt], [SystemExit]), which no handler of the
    view catches. *)
Inductive exn :=
  | WrongExcelFileException (msg : Py.str)
  | UserNotAllowException (msg : Py.str)
  | OSError (msg : Py.str)
  | IndexError (msg : Py.str)
  | ValueError (msg : Py.str)
  | JSONDecodeError (doc : Py.str)
  | MultiValueDictKeyError (key : Py.str)
  | OtherException (msg : Py.str)
  | NonException (msg : Py.str).

Definition is_WrongExcelFileException (e : exn) : bool :=
  match e with WrongExcelFileException _ => true | _ => false end.

Definition is_OSError (e : exn) : bool :=
  match e with OSError _ => true | _ => false end.

Definition is_Exception (e : exn) : bool :=
  match e with NonException _ => false | _ => true end.

Inductive result (A : Type) :=
  | Ok (a : A)
  | Raise (e : exn).
Arguments Ok {A} a.
Arguments Raise {A} e.

(** A computation over a mutable state [S] that returns or raises; the
    state survives a raise, as the heap and the database do. *)
Definition M (S A : Type) : Type := S → result A * S.

Definition ret {S A} (a : A) : M S A := λ s, (Ok a, s).
Definition bind {S A B} (c : M S A) (k : A → M S B) : M S B :=
  λ s, match c s with
       | (Ok a, s') => k a s'
       | (Raise e, s') => (Raise e, s')
       end.
Definition raise {S A} (e : exn) : M S A := λ s, (Raise e, s).
Definition modify {S} (f : S → S) : M S unit := λ s, (Ok tt, f s).
Definition gets {S A} (f : S → A) : M S A := λ s, (Ok (f s), s).
Definition lift {S A} (r : result A) : M S A := λ s, (r, s).

Global Instance M_ret {S} : MRet (M S) := λ A, ret.
Global Instance M_bind {S} : MBind (M S) := λ A B k c, bind c k.

(** [for x in l: body(x)] *)
Fixpoint for_each {S A} (l : list A) (body : A → M S unit) : M S unit :=
  match l with
  | [] => ret tt
  | x :: r => body x;; for_each r body
  end.

(** ** The data model *)

Record User := {
  username : Py.str;
  is_staff : bool;
  is_superuser : bool;
}.

(** A row of the [Project] table: its primary key and its business key. *)
Record Project := {
  pk : Z;
  order_number : Z;
}.

Global Instance Project_eq_dec : EqDecision Project.
Proof. solve_decision. Defined.

(** A row of the [Upload] table. *)
Record Upload := {
  creator : User;
  file_name : Py.str;
  file_content : Py.str;
  read_successful : bool;
  timestamp : Z;
}.

Record UploadedFile := {
  name : Py.str;
  content : Py.str;
}.

Record Request := {
  user : User;
  FILES_c11_file : option UploadedFile;
  FILES_bw_file : option UploadedFile;
}.

Inductive level := WARNING | ERROR.

(** The f-string messages of the view, with the values they interpolate. *)
Inductive message_text :=
  | Next_upload_possible_after (days : Z)
  | File_not_correctly_upload
  | File_not_an_Excel_file
  | Error_while_uploading_files (e : exn)
  | Error_while_fetching_upload_content (e : exn)
  | Exception_msg (msg : Py.str).

Inductive log_entry :=
  | Info_deleting_projects (count : nat) (extra_projects : list Project)
  | Error_files_upload (e : exn) (u : User)
  | Error_not_allowed_to_see_upload_content (u : User)
  | Error_upload_view (e : exn) (u : User).

(** The two file fields of an [UploadFileForm]. *)
Record Form := {
  c11_file_disabled : bool;
  bw_file_disabled : bool;
}.

(** Everything the view can change: the two tables, the message storage of
    the request, the log, and the form instance shared by the class. The
    clock [now] is read only. *)
Record World := {
  projects : list Project;
  uploads : list Upload;
  messages : list (level * message_text);
  log : list log_entry;
  class_form : Form;
  now : Z;
}.

Definition set_projects (f : list Project → list Project) (w : World) : World :=
  {| projects := f (projects w); uploads := uploads w; messages := messages w;
     log := log w; class_form := class_form w; now := now w |}.
Definition set_uploads (f : list Upload → list Upload) (w : World) : World :=
  {| projects := projects w; uploads := f (uploads w); messages := messages w;
     log := log w; class_form := class_form w; now := now w |}.
Definition add_message (l : level) (t : message_text) (w : World) : World :=
  {| projects := projects w; uploads := uploads w;
     messages := messages w ++ [(l, t)];
     log := log w; class_form := class_form w; now := now w |}.
Definition add_log (e : log_entry) (w : World) : World :=
  {| projects := projects w; uploads := uploads w; messages := messages w;
     log := log w ++ [e]; class_form := class_form w; now := now w |}.
Definition set_class_form (f : Form) (w : World) : World :=
  {| projects := projects w; uploads := uploads w; messages := messages w;
     log := log w; class_form := f; now := now w |}.

(** ** Dates *)

(** Microseconds in a day. *)
Definition DAY : Z := 86400 * 1000000.

(** [timedelta(days=n)] *)
Definition timedelta_days (n : Z) : Z := n * DAY.

(** [t.replace(hour=0, minute=0, second=0, microsecond=0)] *)
Definition replace_midnight (t : Z) : Z := t - t mod DAY.

(** [d.days] of a normalised [timedelta]. *)
Definition days (d : Z) : Z := d / DAY.

(** [order_by('-timestamp')] *)
Fixpoint insert_by_timestamp (u : Upload) (l : list Upload) : list Upload :=
  match l with
  | [] => [u]
  | v :: r =>
      if timestamp v <=? timestamp u then u :: l
      else v :: insert_by_timestamp u r
  end.

Definition order_by_timestamp_desc (l : list Upload) : list Upload :=
  foldr insert_by_timestamp [] l.

(** ** Collaborators

    What the view imports from the rest of the project and from the
    settings: the [Uploader] parsers, the [Architect], the record classes
    with their [__str__], [is_user_in_groups], the validation of
    [UploadFileForm], [settings.UPLOAD_ALLOWED_AFTER_DAYS], and the failures
    the database can answer a [delete()] with. *)
Record Collaborators := {
  C11Record : Type;
  BWRecord : Type;
  C11Error : Type;
  BWError : Type;
  Statistics : Type;
  c11_str : C11Record → Py.str;
  bw_str : BWRecord → Py.str;
  parse_c11_file : UploadedFile → result (list C11Record * list C11Error);
  parse_bw_file : UploadedFile → result (list BWRecord * list BWError);
  (** [Architect.build_objects]: it may write projects, and may raise. *)
  build_objects :
    list C11Record → list BWRecord → list Project →
    result Statistics * list Project;
  is_user_in_groups : User → list string → bool;
  form_is_valid : Request → bool;
  UPLOAD_ALLOWED_AFTER_DAYS : Z;
  (** The exception, if any, that deleting a given row raises. *)
  delete_fault : Project → option exn;
}.

Section View.

Context (D : Collaborators).

(** The context dictionary given to [render]: a key the call leaves out is
    [None]. *)
Record Context := {
  ctx_form : option Form;
  ctx_uploads : option (list Upload);
  ctx_data : option (option (Statistics D));
  ctx_bw_errors : option (list (BWError D));
  ctx_c11_errors : option (list (C11Error D));
}.

Record Response := {
  template : string;
  context : Context;
}.

Definition render_form (f : Form) : Response :=
  {| template := "upload.html";
     context := {| ctx_form := Some f; ctx_uploads := None; ctx_data := None;
                   ctx_bw_errors := None; ctx_c11_errors := None |} |}.

Definition render_form_uploads (f : Form) (us : list Upload) : Response :=
  {| template := "upload.html";
     context := {| ctx_form := Some f; ctx_uploads := Some us; ctx_data := None;
                   ctx_bw_errors := None; ctx_c11_errors := None |} |}.

Definition render_form_errors (f : Form) (bw : list (BWError D))
    (c11 : list (C11Error D)) : Response :=
  {| template := "upload.html";
     context := {| ctx_form := Some f; ctx_uploads := None; ctx_data := None;
                   ctx_bw_errors := Some bw; ctx_c11_errors := Some c11 |} |}.

Definition render_statistics (data : option (Statistics D))
    (bw : list (BWError D)) (c11 : list (C11Error D)) : Response :=
  {| template := "upload_statistics.html";
     context := {| ctx_form := None; ctx_uploads := None; ctx_data := Some data;
                   ctx_bw_errors := Some bw; ctx_c11_errors := Some c11 |} |}.

(** *** The cadence gate *)

(** [UploadView.__days_to_next_upload] *)
Definition days_to_next_upload (w : World) (request : Request) : Z :=
  if is_staff (user request) then 0
  else
    match order_by_timestamp_desc (uploads w) with
    | [] => 0
    | last_upload :: _ =>
        days ((timestamp last_upload + timedelta_days (UPLOAD_ALLOWED_AFTER_DAYS D))
              - replace_midnight (now w))
    end.

(** [UploadView.__check_upload_allow] *)
Definition check_upload_allow (w : World) (request : Request) : bool * World :=
  let days_to_upload := days_to_next_upload w request in
  if 0 <? days_to_upload
  then (false, add_message WARNING (Next_upload_possible_after days_to_upload) w)
  else (true, w).

Definition upload_groups : list string := ["C-Level"; "Sales"]%string.

(** *** [UploadView.get] *)

Definition disabled_form : Form :=
  {| c11_file_disabled := true; bw_file_disabled := true |}.
Definition enabled_form : Form :=
  {| c11_file_disabled := false; bw_file_disabled := false |}.

(** The [try] block of [get]. *)
Definition get_try (request : Request) : M World unit :=
  if is_superuser (user request) then modify (set_class_form enabled_form)
  else
    allowed ← (λ w, let '(a, w') := check_upload_allow w request in (Ok a, w'));
    (if negb allowed then modify (set_class_form disabled_form) else ret tt);;
    if negb (is_user_in_groups D (user request) upload_groups)
    then raise (UserNotAllowException (Py.lit "User not allowed to perform this action"))
    else ret tt.

Definition get (w : World) (request : Request) : result Response * World :=
  match get_try request w with
  | (Raise (UserNotAllowException msg), w1) =>
      let w2 := add_log (Error_not_allowed_to_see_upload_content (user request)) w1 in
      let w3 := add_message WARNING (Exception_msg msg) w2 in
      (Ok (render_form (class_form w3)), w3)
  | (Raise e, w1) =>
      if is_Exception e then
        let w2 := add_log (Error_upload_view e (user request)) w1 in
        let w3 := add_message ERROR (Error_while_fetching_upload_content e) w2 in
        (Ok (render_form_uploads (class_form w3)
               (order_by_timestamp_desc (uploads w3))), w3)
      else (Raise e, w1)
  | (Ok _, w1) =>
      (Ok (render_form_uploads (class_form w1)
             (order_by_timestamp_desc (uploads w1))), w1)
  end.

(** *** [UploadView.post] *)

(** The local variables of [post] that outlive its [try] block. *)
Record Locals := {
  statistics : option (Statistics D);
  c11_data_error : list (C11Error D);
  bw_data_error : list (BWError D);
  upload_successful : bool;
  file_content_var : Py.str;
}.

Record Frame := {
  locals : Locals;
  world : World;
}.

Definition on_locals (f : Locals → Locals) (s : Frame) : Frame :=
  {| locals := f (locals s); world := world s |}.
Definition on_world (f : World → World) (s : Frame) : Frame :=
  {| locals := locals s; world := f (world s) |}.

Definition set_statistics (v : option (Statistics D)) (l : Locals) : Locals :=
  {| statistics := v; c11_data_error := c11_data_error l;
     bw_data_error := bw_data_error l; upload_successful := upload_successful l;
     file_content_var := file_content_var l |}.
Definition set_c11_data_error (v : list (C11Error D)) (l : Locals) : Locals :=
  {| statistics := statistics l; c11_data_error := v;
     bw_data_error := bw_data_error l; upload_successful := upload_successful l;
     file_content_var := file_content_var l |}.
Definition set_bw_data_error (v : list (BWError D)) (l : Locals) : Locals :=
  {| statistics := statistics l; c11_data_error := c11_data_error l;
     bw_data_error := v; upload_successful := upload_successful l;
     file_content_var := file_content_var l |}.
Definition set_upload_successful (v : bool) (l : Locals) : Locals :=
  {| statistics := statistics l; c11_data_error := c11_data_error l;
     bw_data_error := bw_data_error l; upload_successful := v;
     file_content_var := file_content_var l |}.
Definition set_file_content (v : Py.str) (l : Locals) : Locals :=
  {| statistics := statistics l; c11_data_error := c11_data_error l;
     bw_data_error := bw_data_error l; upload_successful := upload_successful l;
     file_content_var := v |}.

(** The f-string of lines 98-100: the key ["c11_data"] is given the BW rows
    and the key ["bw_data"] the C11 rows. *)
Definition serialize (c11_data : list (C11Record D)) (bw_data : list (BWRecord D))
  : Py.str :=
  Py.lit "{" ++ Py.quoted "c11_data" ++ Py.lit ": "
  ++ Json.dumps (bw_str D <$> bw_data)
  ++ Py.lit ", " ++ Py.quoted "bw_data" ++ Py.lit ": "
  ++ Json.dumps (c11_str D <$> c11_data)
  ++ Py.lit "}".

(** [l[i]] *)
Definition index {A} (l : list A) (i : nat) : result A :=
  match l !! i with
  | Some x => Ok x
  | None => Raise (IndexError (Py.lit "list index out of range"))
  end.

Definition result_bind {A B} (r : result A) (k : A → result B) : result B :=
  match r with Ok a => k a | Raise e => Raise e end.

(** Lines 111-112: the order number read out of one stringified row. *)
Definition row_order_number (row : Py.str) : result Z :=
  result_bind (index (Py.split "," (Py.slice 1 (-1) row)) 0) (λ order_number_cell,
  result_bind (index (Py.split ":" order_number_cell) 1) (λ field,
  match Py.int field with
  | Some n => Ok n
  | None => Raise (ValueError field)
  end)).

(** The inner loop, line 110, appending to [acc]. *)
Fixpoint rows_order_numbers (file_data : list Py.str) (acc : list Z)
  : result (list Z) :=
  match file_data with
  | [] => Ok acc
  | row :: r =>
      result_bind (row_order_number row) (λ n, rows_order_numbers r (acc ++ [n]))
  end.

(** The outer loop, line 109, over the values of the parsed object. *)
Fixpoint values_order_numbers (vs : list (list Py.str)) (acc : list Z)
  : result (list Z) :=
  match vs with
  | [] => Ok acc
  | file_data :: r =>
      result_bind (rows_order_numbers file_data acc) (values_order_numbers r)
  end.

(** Lines 107-112 *)
Definition uploaded_order_numbers (file_content : Py.str) : result (list Z) :=
  match Json.loads file_content with
  | Some file_json_format => values_order_numbers (Json.values file_json_format) []
  | None => Raise (JSONDecodeError file_content)
  end.

(** [Project.objects.exclude(order_number__in=nums)], evaluated. *)
Definition exclude_order_number_in (nums : list Z) (ps : list Project)
  : list Project :=
  filter (λ p, order_number p ∉ nums) ps.

(** [p.delete()]: the row with the primary key of [p] goes, unless the
    database refuses. *)
Definition delete (p : Project) : M Frame unit :=
  match delete_fault D p with
  | Some e => raise e
  | None => modify (on_world (set_projects (filter (λ q, pk q ≠ pk p))))
  end.

(** The [try] block of [post], lines 96-118. *)
Definition post_try (request : Request) (c11_file bw_file : UploadedFile)
  : M Frame unit :=
  '(c11_data, c11_err) ← lift (parse_c11_file D c11_file);
  modify (on_locals (set_c11_data_error c11_err));;
  '(bw_data, bw_err) ← lift (parse_bw_file D bw_file);
  modify (on_locals (set_bw_data_error bw_err));;
  let file_content := serialize c11_data bw_data in
  modify (on_locals (set_file_content file_content));;
  stats ← (λ s,
    let '(r, ps) := build_objects D c11_data bw_data (projects (world s)) in
    (r, on_world (set_projects (λ _, ps)) s));
  modify (on_locals (set_statistics (Some stats)));;
  modify (on_locals (set_upload_successful true));;
  nums ← lift (uploaded_order_numbers file_content);
  extra_projects ← gets (λ s, exclude_order_number_in nums (projects (world s)));
  modify (on_world (add_log
    (Info_deleting_projects (length extra_projects) extra_projects)));;
  for_each extra_projects delete.

(** The [except] clauses, lines 120-136, for an exception they catch. *)
Definition post_except (request : Request) (e : exn) (w : World) : World :=
  if is_WrongExcelFileException e then
    add_message WARNING File_not_correctly_upload w
  else if is_OSError e then
    add_message WARNING File_not_an_Excel_file w
  else
    add_message ERROR (Error_while_uploading_files e)
      (add_log (Error_files_upload e (user request)) w).

(** The label of line 142. *)
Definition upload_file_name (c11_file bw_file : UploadedFile) : Py.str :=
  Py.slice 0 99
    (Py.lit "c11: " ++ name c11_file ++ Py.lit " - bw: " ++ name bw_file).

(** [Upload(...).save()], lines 139-145; the row is stamped with the time
    of the save. *)
Definition save_upload (request : Request) (c11_file bw_file : UploadedFile)
    (l : Locals) (w : World) : World :=
  set_uploads (λ us, us ++ [{| creator := user request;
                               file_name := upload_file_name c11_file bw_file;
                               file_content := file_content_var l;
                               read_successful := upload_successful l;
                               timestamp := now w |}]) w.

Definition initial_locals : Locals :=
  {| statistics := None; c11_data_error := []; bw_data_error := [];
     upload_successful := false; file_content_var := [] |}.

(** [request.FILES[key]] *)
Definition files_item (key : string) (f : option UploadedFile) : result UploadedFile :=
  match f with
  | Some x => Ok x
  | None => Raise (MultiValueDictKeyError (Py.lit key))
  end.

(** The guard of lines 81-82. *)
Definition post_allowed (w : World) (request : Request) : bool * World :=
  let '(allowed, w1) := check_upload_allow w request in
  (allowed && (is_superuser (user request)
               || is_user_in_groups D (user request) upload_groups), w1).

(** Lines 120-153 and 162-166: what follows the [try] block once it has
    returned or raised [r] in the frame [s] — the [except] clauses, the
    [finally] clause with its [return], and the final [return]. A [return]
    inside [finally] discards an exception in flight. *)
Definition post_finish (request : Request) (c11_file bw_file : UploadedFile)
    (r : result unit) (s : Frame) : result Response * World :=
  let w2 := match r with
            | Raise e => if is_Exception e then post_except request e (world s)
                         else world s
            | Ok _ => world s
            end in
  let w3 := save_upload request c11_file bw_file (locals s) w2 in
  if negb (upload_successful (locals s)) then
    (Ok (render_form_errors enabled_form (bw_data_error (locals s))
           (c11_data_error (locals s))), w3)
  else
    match r with
    | Raise e =>
        if is_Exception e then
          (Ok (render_statistics (statistics (locals s))
                 (bw_data_error (locals s)) (c11_data_error (locals s))), w3)
        else (Raise e, w3)
    | Ok _ =>
        (Ok (render_statistics (statistics (locals s))
               (bw_data_error (locals s)) (c11_data_error (locals s))), w3)
    end.

Definition post (w : World) (request : Request) : result Response * World :=
  let '(allowed, w1) := post_allowed w request in
  if negb allowed then (Ok (render_form disabled_form), w1)
  else if form_is_valid D request then
    match files_item "c11_file" (FILES_c11_file request) with
    | Raise e => (Raise e, w1)
    | Ok c11_file =>
    match files_item "bw_file" (FILES_bw_file request) with
    | Raise e => (Raise e, w1)
    | Ok bw_file =>
        let '(r, s) := post_try request c11_file bw_file
                         {| locals := initial_locals; world := w1 |} in
        post_finish request c11_file bw_file r s
    end end
  else
    (Ok (render_form_errors enabled_form [] []), w1).

End View.

Arguments render_form {D} f.
Arguments render_form_uploads {D} f us.
Arguments render_form_errors {D} f bw c11.
Arguments render_statistics {D} data bw c11.

(** ** Notions the properties are stated with *)

(** The rows of [before] that are no longer in [after]. *)
Definition deleted (before after : list Project) : list Project :=
  filter (λ p, p ∉ after) before.

(** The stale set: the stored projects whose order number is not among
    the uploaded ones. *)
Definition stale (nums : list Z) (store : list Project) : list Project :=
  filter (λ p, order_number p ∉ nums) store.

(** The rows of [l] up to the first one whose deletion raises, and the
    exception raised there. *)
Fixpoint deleted_prefix (D : Collaborators) (l : list Project) : list Project :=
  match l with
  | [] => []
  | p :: r =>
      match delete_fault D p with
      | Some _ => []
      | None => p :: deleted_prefix D r
      end
  end.

Fixpoint first_fault (D : Collaborators) (l : list Project) : option exn :=
  match l with
  | [] => None
  | p :: r =>
      match delete_fault D p with
      | Some e => Some e
      | None => first_fault D r
      end
  end.

(** The timestamp of the most recent upload. *)
Fixpoint last_upload_timestamp (us : list Upload) : option Z :=
  match us with
  | [] => None
  | u :: r =>
      Some (match last_upload_timestamp r with
            | None => timestamp u
            | Some t => Z.max (timestamp u) t
            end)
  end.

(** Days remaining: (last upload + cooldown) - today at midnight UTC, in
    whole days. *)
Definition days_remaining (last_upload cooldown_days now : Z) : Z :=
  ((last_upload + cooldown_days * DAY) - (now - now mod DAY)) / DAY.

(** Parsing and merging, the stages before the success flag is set: their
    result, with the per-row errors collected so far (C11, then BW). *)
Definition read_stage (D : Collaborators) (store : list Project)
    (c11_file bw_file : UploadedFile)
  : result (Statistics D) * list (C11Error D) * list (BWError D) :=
  match parse_c11_file D c11_file with
  | Raise e => (Raise e, [], [])
  | Ok (c11_data, c11_err) =>
      match parse_bw_file D bw_file with
      | Raise e => (Raise e, c11_err, [])
      | Ok (bw_data, bw_err) =>
          (fst (build_objects D c11_data bw_data store), c11_err, bw_err)
      end
  end.

(** The frame once both files are parsed and the text is serialised. *)
Definition parsed_frame {D : Collaborators} (c11_err : list (C11Error D))
    (bw_err : list (BWError D))
    (text : Py.str) (stats : option (Statistics D)) (flag : bool)
    (store : list Project) (w : World) : Frame D :=
  {| locals := {| statistics := stats; c11_data_error := c11_err;
                  bw_data_error := bw_err; upload_successful := flag;
                  file_content_var := text |};
     world := set_projects (λ _, store) w |}.

(** A stringified record that carries the order number [n] where the view
    looks for it: after the opening character come a field name, a colon
    and an integer literal for [n], and then the closing character, or a
    comma and anything up to the closing character. Neither the name nor the
    literal holds a comma or a colon. *)
Definition prints_order_number (row : Py.str) (n : Z) : Prop :=
  ∃ (o c : ascii) (key field tail : Py.str),
    row = o :: (key ++ ":"%char :: field ++ tail) ++ [c]
    ∧ (","%char ∉ key) ∧ (":"%char ∉ key)
    ∧ (","%char ∉ field) ∧ (":"%char ∉ field)
    ∧ (tail = [] ∨ ∃ rest, tail = ","%char :: rest)
    ∧ Py.int field = Some n.

(** All-or-nothing deletion: every stale row is gone, or every stale row
    is still there. *)
Definition all_or_nothing (stale_rows after : list Project) : Prop :=
  (∀ p, p ∈ stale_rows → p ∉ after) ∨ (∀ p, p ∈ stale_rows → p ∈ after).

(** The message an [except] clause leaves for the exception it catches. *)
Definition failure_message (e : exn) : level * message_text :=
  if is_WrongExcelFileException e then (WARNING, File_not_correctly_upload)
  else if is_OSError e then (WARNING, File_not_an_Excel_file)
  else (ERROR, Error_while_uploading_files e).

(** Whether a POST gets as far as the [try] block: the gate lets it
    through, the form is valid and both files are there. *)
Definition reaches_try (D : Collaborators) (w : World) (request : Request) : bool :=
  fst (post_allowed D w request) && form_is_valid D request
  && bool_decide (is_Some (FILES_c11_file request))
  && bool_decide (is_Some (FILES_bw_file request)).

(** ** A concrete installation, for the examples *)

Module Example.

Import Py.

(** Records reduced to their order number, printed the way the view's
    re-parsing expects: the order number is the first field. *)
Definition record_str (source : string) (n : Z) : str :=
  lit "{order_number: " ++ lit (pretty n) ++ lit ", source: " ++ lit source ++ lit "}".

(** Modelled from the spec: the Record Parser, absent from the sources, on
    files whose content is a comma-separated line of order numbers. A cell
    that is not an integer is a per-row error; the content [corrupt] is a
    whole-file structural failure, [crash] an unexpected one. *)
Definition parse_cells (cells : list str) : list Z * list str :=
  (omap Py.int cells, filter (λ c, Py.int c = None) cells).

Definition parse_file (f : UploadedFile) : result (list Z * list str) :=
  if decide (content f = lit "corrupt")
  then Raise (WrongExcelFileException (lit "not a workbook"))
  else if decide (content f = lit "crash")
  then Raise (OtherException (lit "unexpected"))
  else Ok (parse_cells (split "," (content f))).

(** Modelled from the spec: the Object Architect, absent from the sources,
    reduced to insert-or-update keyed by order number; the statistics are
    the number of records merged. *)
Definition next_pk (store : list Project) : Z :=
  1 + foldr (λ p m, Z.max (pk p) m) 0 store.

Definition upsert (store : list Project) (n : Z) : list Project :=
  if decide (n ∈ order_number <$> store) then store
  else store ++ [{| pk := next_pk store; order_number := n |}].

Definition architect (c11 bw : list Z) (store : list Project)
  : result nat * list Project :=
  (Ok (length (c11 ++ bw)), foldl upsert store (c11 ++ bw)).

Definition installation (fault : Project → option exn) : Collaborators :=
  {| C11Record := Z; BWRecord := Z; C11Error := str; BWError := str;
     Statistics := nat;
     c11_str := record_str "c11"; bw_str := record_str "bw";
     parse_c11_file := parse_file; parse_bw_file := parse_file;
     build_objects := architect;
     is_user_in_groups := λ u _, bool_decide (username u = lit "alice");
     form_is_valid := λ r, bool_decide (is_Some (FILES_c11_file r))
                           && bool_decide (is_Some (FILES_bw_file r));
     UPLOAD_ALLOWED_AFTER_DAYS := 7;
     delete_fault := fault |}.

(** A database that deletes whatever it is asked to. *)
Definition healthy : Collaborators := installation (λ _, None).

(** A database in which project 103 is protected: deleting it raises. *)
Definition protected_103 : Collaborators :=
  installation (λ p, if order_number p =? 103
                     then Some (OtherException (lit "ProtectedError")) else None).

Definition alice : User :=
  {| username := lit "alice"; is_staff := false; is_superuser := false |}.
Definition mallory : User :=
  {| username := lit "mallory"; is_staff := false; is_superuser := false |}.

Definition file (n c : string) : UploadedFile :=
  {| name := lit n; content := lit c |}.

Definition upload_request (u : User) (c11 bw : string) : Request :=
  {| user := u; FILES_c11_file := Some (file "c11.xlsx" c11);
     FILES_bw_file := Some (file "bw.xlsx" bw) |}.

(** The store holds projects 101, 102 and 103 and nothing was uploaded yet;
    it is noon of day 20000. *)
Definition store_101_102_103 : list Project :=
  [{| pk := 1; order_number := 101 |}; {| pk := 2; order_number := 102 |};
   {| pk := 3; order_number := 103 |}].

Definition w0 : World :=
  {| projects := store_101_102_103; uploads := []; messages := []; log := [];
     class_form := enabled_form; now := 20000 * DAY + DAY / 2 |}.

(** The table once the merge of an upload of 101 and 104 has inserted
    project 104. *)
Definition store_merged : list Project :=
  store_101_102_103 ++ [{| pk := 4; order_number := 104 |}].

(** The same instant, with one earlier upload made exactly three days
    before. *)
Definition w_three_days_later : World :=
  {| projects := store_101_102_103;
     uploads := [{| creator := alice; file_name := lit "c11: a - bw: b";
                    file_content := []; read_successful := true;
                    timestamp := 20000 * DAY + DAY / 2 - 3 * DAY |}];
     messages := []; log := [];
     class_form := enabled_form; now := 20000 * DAY + DAY / 2 |}.

(** A POST without files, which the form rejects. *)
Definition empty_request (u : User) : Request :=
  {| user := u; FILES_c11_file := None; FILES_bw_file := None |}.

(** A superuser who is not staff, and a staff member of a permitted
    group. *)
Definition root : User :=
  {| username := lit "root"; is_staff := false; is_superuser := true |}.
Definition staff_alice : User :=
  {| username := lit "alice"; is_staff := true; is_superuser := false |}.

(** A database in which the deletion of project 103 is interrupted by an
    exception outside [Exception]. *)
Definition interrupted_103 : Collaborators :=
  installation (λ p, if order_number p =? 103
                     then Some (NonException (lit "KeyboardInterrupt")) else None).

(** Records printed as their bare order number, without a field name. *)
Definition bare_strings : Collaborators :=
  {| C11Record := Z; BWRecord := Z; C11Error := str; BWError := str;
     Statistics := nat;
     c11_str := λ n, lit (pretty n); bw_str := λ n, lit (pretty n);
     parse_c11_file := parse_file; parse_bw_file := parse_file;
     build_objects := architect;
     is_user_in_groups := λ u _, bool_decide (username u = lit "alice");
     form_is_valid := λ r, bool_decide (is_Some (FILES_c11_file r))
                           && bool_decide (is_Some (FILES_bw_file r));
     UPLOAD_ALLOWED_AFTER_DAYS := 7;
     delete_fault := λ _, None |}.

End Example.

(** ** Round trip of [json.loads] after [json.dumps] *)

Module JsonFacts.

Import Py Json.

Lemma scanstring_escape_char (a : ascii) (tl : str) :
  scanstring (escape_char a ++ tl)
  = '(t, rest) ← scanstring tl; Some (a :: t, rest).
Proof. destruct a as [[] [] [] [] [] [] [] []]; reflexivity. Qed.

Lemma scanstring_escape (s rest : str) :
  scanstring (escape s ++ "034"%char :: rest) = Some (s, rest).
Proof.
  induction s as [|a s IH]; [reflexivity|].
  unfold escape in *. rewrite fmap_cons, concat_cons, <- app_assoc.
  rewrite scanstring_escape_char, IH. reflexivity.
Qed.

Lemma dumps_str_app (x tl : str) :
  dumps_str x ++ tl = "034"%char :: escape x ++ "034"%char :: tl.
Proof. unfold dumps_str. rewrite <- app_comm_cons, <- app_assoc. reflexivity. Qed.

Lemma skip_ws_join (y : str) (l : list str) (tl : str) :
  skip_ws (join (lit ", ") (dumps_str <$> y :: l) ++ tl)
  = join (lit ", ") (dumps_str <$> y :: l) ++ tl.
Proof. destruct l; reflexivity. Qed.

Lemma array_items_join (l : list str) (x rest : str) (fuel : nat) :
  (length l < fuel)%nat →
  array_items fuel (join (lit ", ") (dumps_str <$> (x :: l)) ++ "]"%char :: rest)
  = Some (x :: l, rest).
Proof.
  revert x fuel. induction l as [|y l IH]; intros x fuel Hfuel.
  - destruct fuel as [|fuel]; [simpl in Hfuel; lia|].
    cbn [fmap list_fmap join]. rewrite dumps_str_app.
    cbn [array_items Ascii.eqb Bool.eqb]. rewrite scanstring_escape.
    reflexivity.
  - destruct fuel as [|fuel]; [simpl in Hfuel; lia|].
    change (join (lit ", ") (dumps_str <$> x :: y :: l))
      with (dumps_str x ++ lit ", " ++ join (lit ", ") (dumps_str <$> y :: l)).
    rewrite <- !app_assoc, dumps_str_app.
    cbn [array_items Ascii.eqb Bool.eqb]. rewrite scanstring_escape.
    change (lit ", " ++ ?t) with (","%char :: " "%char :: t).
    cbn [mbind option_bind].
    change (skip_ws (","%char :: ?t)) with (","%char :: t).
    cbn [Ascii.eqb Bool.eqb].
    change (skip_ws (" "%char :: ?t)) with (skip_ws t).
    rewrite skip_ws_join, IH by (simpl in Hfuel; lia).
    reflexivity.
Qed.

Lemma length_join_dumps (l : list str) :
  (length l ≤ length (join (lit ", ") (dumps_str <$> l)))%nat.
Proof.
  induction l as [|x [|y l] IH]; [simpl; lia | simpl; lia |].
  change (join (lit ", ") (dumps_str <$> x :: y :: l))
    with (dumps_str x ++ lit ", " ++ join (lit ", ") (dumps_str <$> y :: l)).
  rewrite !length_app. simpl in *. lia.
Qed.

(** Reading back an array written by [dumps]: any [fuel] from the length of
    the text on is enough. *)
Lemma array_dumps (l : list str) (rest : str) (fuel : nat) :
  (length (join (lit ", ") (dumps_str <$> l)) < fuel)%nat →
  array fuel (join (lit ", ") (dumps_str <$> l) ++ "]"%char :: rest)
  = Some (l, rest).
Proof.
  intros Hfuel. pose proof (length_join_dumps l) as Hlen.
  destruct l as [|x l]; [reflexivity|].
  unfold array. rewrite skip_ws_join.
  assert (∃ t, join (lit ", ") (dumps_str <$> x :: l) ++ "]"%char :: rest
               = "034"%char :: t) as [t Ht] by (destruct l; eexists; reflexivity).
  rewrite Ht. cbn [Ascii.eqb Bool.eqb]. rewrite <- Ht.
  apply array_items_join.
  change (length (x :: l)) with (S (length l)) in Hlen. lia.
Qed.

(** One member [k: v] of an object, as [dumps] writes its parts. *)
Lemma object_items_member (k : str) (v : list str) (rest : str)
    (fuel : nat) (acc : list (str * list str)) :
  object_items (S fuel) acc (dumps_str k ++ lit ": " ++ dumps v ++ rest)
  = match skip_ws rest with
    | d :: r5 =>
        if Ascii.eqb d "," then object_items fuel (dict_set k v acc) (skip_ws r5)
        else if Ascii.eqb d "}" then Some (dict_set k v acc, r5)
        else None
    | [] => None
    end.
Proof.
  rewrite dumps_str_app.
  cbn [object_items Ascii.eqb Bool.eqb]. rewrite scanstring_escape.
  cbn [mbind option_bind].
  unfold dumps. rewrite <- !app_assoc.
  change (lit ": " ++ lit "[" ++ ?t) with (":"%char :: " "%char :: "["%char :: t).
  change (skip_ws (":"%char :: ?t)) with (":"%char :: t).
  cbn [Ascii.eqb Bool.eqb].
  change (skip_ws (" "%char :: "["%char :: ?t)) with ("["%char :: t).
  cbn [Ascii.eqb Bool.eqb].
  change (lit "]" ++ rest) with ("]"%char :: rest).
  rewrite array_dumps by (rewrite length_app; simpl; lia).
  reflexivity.
Qed.

Lemma object_items_two (a b : list str) (fuel : nat) :
  (2 ≤ fuel)%nat →
  object_items fuel []
    (dumps_str (lit "c11_data") ++ lit ": " ++ dumps a
     ++ ","%char :: " "%char :: (dumps_str (lit "bw_data") ++ lit ": "
     ++ dumps b ++ lit "}"))
  = Some ([(lit "c11_data", a); (lit "bw_data", b)], []).
Proof.
  intros Hfuel. destruct fuel as [|[|fuel]]; [lia | lia |].
  rewrite object_items_member.
  change (skip_ws (","%char :: ?t)) with (","%char :: t).
  cbn [Ascii.eqb Bool.eqb].
  change (skip_ws (" "%char :: dumps_str ?k ++ ?t)) with (dumps_str k ++ t).
  rewrite object_items_member.
  reflexivity.
Qed.

(** The text the view stores: an object of two members, each the [dumps] of
    a list of strings, is read back as those two lists under their keys. *)
Lemma loads_two_members (a b : list str) :
  loads (lit "{" ++ quoted "c11_data" ++ lit ": " ++ dumps a
         ++ lit ", " ++ quoted "bw_data" ++ lit ": " ++ dumps b ++ lit "}")
  = Some [(lit "c11_data", a); (lit "bw_data", b)].
Proof.
  change (lit "{" ++ quoted "c11_data" ++ lit ": " ++ dumps a
          ++ lit ", " ++ quoted "bw_data" ++ lit ": " ++ dumps b ++ lit "}")
    with ("{"%char :: (dumps_str (lit "c11_data") ++ lit ": " ++ dumps a
          ++ ","%char :: " "%char :: (dumps_str (lit "bw_data") ++ lit ": "
          ++ dumps b ++ lit "}"))).
  unfold loads.
  change (skip_ws ("{"%char :: ?t)) with ("{"%char :: t).
  cbn [Ascii.eqb Bool.eqb].
  rewrite (dumps_str_app (lit "c11_data")).
  change (skip_ws ("034"%char :: ?t)) with ("034"%char :: t).
  cbn [Ascii.eqb Bool.eqb].
  rewrite <- (dumps_str_app (lit "c11_data")).
  rewrite object_items_two; [reflexivity|].
  rewrite (dumps_str_app (lit "c11_data")), length_cons, length_app, length_cons.
  lia.
Qed.

End JsonFacts.


(** ** The cadence gate *)

Section GateFacts.

Context (D : Collaborators).

Lemma head_insert_by_timestamp (u : Upload) (l : list Upload) :
  timestamp <$> head (insert_by_timestamp u l)
  = Some (match timestamp <$> head l with
          | None => timestamp u
          | Some t => Z.max (timestamp u) t
          end).
Proof.
  destruct l as [|v r]; [reflexivity|]. simpl.
  destruct (Z.leb_spec (timestamp v) (timestamp u)); simpl; f_equal; lia.
Qed.

(** The first row of [order_by('-timestamp')] carries the latest timestamp. *)
Lemma head_order_by_timestamp_desc (us : list Upload) :
  timestamp <$> head (order_by_timestamp_desc us) = last_upload_timestamp us.
Proof.
  induction us as [|u us IH]; [reflexivity|].
  change (order_by_timestamp_desc (u :: us))
    with (insert_by_timestamp u (order_by_timestamp_desc us)).
  rewrite head_insert_by_timestamp, IH. reflexivity.
Qed.

Lemma days_to_next_upload_spec (w : World) (request : Request) :
  days_to_next_upload D w request
  = if is_staff (user request) then 0
    else match last_upload_timestamp (uploads w) with
         | None => 0
         | Some t => days_remaining t (UPLOAD_ALLOWED_AFTER_DAYS D) (now w)
         end.
Proof.
  unfold days_to_next_upload. destruct (is_staff (user request)); [reflexivity|].
  rewrite <- head_order_by_timestamp_desc.
  destruct (order_by_timestamp_desc (uploads w)); reflexivity.
Qed.

Lemma DAY_pos : 0 < DAY.
Proof. reflexivity. Qed.

Lemma days_remaining_three_days_ago (now : Z) :
  days_remaining (now - 3 * DAY) 7 now = 4.
Proof.
  unfold days_remaining. pose proof DAY_pos as HD.
  pose proof (Z.mod_pos_bound now DAY HD) as Hm.
  symmetry. apply (Z.div_unique_pos _ _ _ (now mod DAY)); lia.
Qed.

Lemma check_upload_allow_eq (w : World) (request : Request) :
  check_upload_allow D w request
  = if 0 <? days_to_next_upload D w request
    then (false, add_message WARNING
                   (Next_upload_possible_after (days_to_next_upload D w request)) w)
    else (true, w).
Proof. reflexivity. Qed.

(** The gate adds at most a message: the tables, the log and the clock are
    as before. *)
Lemma check_upload_allow_frame (w : World) (request : Request) :
  let w' := snd (check_upload_allow D w request) in
  projects w' = projects w ∧ uploads w' = uploads w ∧ log w' = log w
  ∧ class_form w' = class_form w ∧ now w' = now w.
Proof.
  rewrite check_upload_allow_eq.
  destruct (0 <? days_to_next_upload D w request); simpl; auto.
Qed.

End GateFacts.

(** C6. The cadence gate lets a staff actor through whatever the history;
    any other actor is let through exactly when there is no earlier upload
    or the days remaining — (last upload + cooldown) - today at midnight
    UTC, in whole days — are at most 0. With a cooldown of 7 days and the
    last upload 3 days ago, an actor who is not staff is refused and told 4
    days. *)
Theorem cadence_gate (D : Collaborators) (w : World) (request : Request) :
  (is_staff (user request) = true → check_upload_allow D w request = (true, w))
  ∧ (is_staff (user request) = false →
     (fst (check_upload_allow D w request) = true
      ↔ last_upload_timestamp (uploads w) = None
        ∨ ∃ t, last_upload_timestamp (uploads w) = Some t
               ∧ days_remaining t (UPLOAD_ALLOWED_AFTER_DAYS D) (now w) ≤ 0))
  ∧ (is_staff (user request) = false →
     UPLOAD_ALLOWED_AFTER_DAYS D = 7 →
     last_upload_timestamp (uploads w) = Some (now w - 3 * DAY) →
     days_to_next_upload D w request = 4
     ∧ check_upload_allow D w request
       = (false, add_message WARNING (Next_upload_possible_after 4) w)).
Proof.
  rewrite check_upload_allow_eq, days_to_next_upload_spec.
  split; [|split].
  - intros ->. reflexivity.
  - intros ->. destruct (last_upload_timestamp (uploads w)) as [t|].
    + destruct (Z.ltb_spec 0 (days_remaining t (UPLOAD_ALLOWED_AFTER_DAYS D) (now w)));
        simpl; split.
      * discriminate.
      * intros [?|(t' & [= <-] & ?)]; [discriminate | lia].
      * intros _. right. eauto.
      * reflexivity.
    + simpl. split; auto.
  - intros -> -> ->. rewrite days_remaining_three_days_ago. split; reflexivity.
Qed.

(** ** Running [post] *)

Lemma filter_all {A} (P : A → Prop) `{!∀ x, Decision (P x)} (l : list A) :
  (∀ x, P x) → filter P l = l.
Proof.
  intros HP. induction l as [|x l IH]; [reflexivity|].
  rewrite filter_cons_True by auto. f_equal. exact IH.
Qed.

Section PostFacts.

Context (D : Collaborators).

Implicit Types (w : World) (request : Request) (s : Frame D).

Ltac run :=
  unfold mbind, M_bind, bind, lift, modify, gets, mret, M_ret, ret, raise;
  cbn beta iota.

Lemma post_allowed_world w request :
  snd (post_allowed D w request) = snd (check_upload_allow D w request).
Proof. unfold post_allowed. destruct (check_upload_allow D w request); reflexivity. Qed.

(** A POST that the gate admits, with a valid form and both files, runs the
    [try] block and what follows it. *)
Lemma post_admitted w request (c11_file bw_file : UploadedFile) :
  fst (post_allowed D w request) = true →
  form_is_valid D request = true →
  FILES_c11_file request = Some c11_file →
  FILES_bw_file request = Some bw_file →
  post D w request
  = let rs := post_try D request c11_file bw_file
                {| locals := initial_locals D;
                   world := snd (check_upload_allow D w request) |} in
    post_finish D request c11_file bw_file (fst rs) (snd rs).
Proof.
  intros Hallow Hvalid Hc11 Hbw. unfold post.
  rewrite <- post_allowed_world.
  destruct (post_allowed D w request) as [allowed w1]. simpl in Hallow. subst allowed.
  rewrite Hvalid, Hc11, Hbw. simpl.
  destruct (post_try D request c11_file bw_file _); reflexivity.
Qed.

(** A POST that the gate refuses or whose form is invalid changes nothing
    but the messages. *)
Lemma post_refused w request :
  fst (post_allowed D w request) && form_is_valid D request = false →
  snd (post D w request) = snd (check_upload_allow D w request).
Proof.
  intros H. unfold post. rewrite <- post_allowed_world.
  destruct (post_allowed D w request) as [allowed w1]. simpl in *.
  destruct allowed; [|reflexivity]. simpl in *. rewrite H. reflexivity.
Qed.

Lemma post_try_c11_raises request (c11_file bw_file : UploadedFile) (e : exn) s :
  parse_c11_file D c11_file = Raise e →
  post_try D request c11_file bw_file s = (Raise e, s).
Proof. intros H. unfold post_try. run. rewrite H. reflexivity. Qed.

Lemma post_try_bw_raises request (c11_file bw_file : UploadedFile)
    (c11_data : list (C11Record D)) (c11_err : list (C11Error D)) (e : exn) s :
  parse_c11_file D c11_file = Ok (c11_data, c11_err) →
  parse_bw_file D bw_file = Raise e →
  post_try D request c11_file bw_file s
  = (Raise e, on_locals D (set_c11_data_error D c11_err) s).
Proof. intros H1 H2. unfold post_try. run. rewrite H1. run. rewrite H2. reflexivity. Qed.

Lemma post_try_build_raises request (c11_file bw_file : UploadedFile)
    c11_data c11_err bw_data bw_err (e : exn) (mid : list Project) w :
  parse_c11_file D c11_file = Ok (c11_data, c11_err) →
  parse_bw_file D bw_file = Ok (bw_data, bw_err) →
  build_objects D c11_data bw_data (projects w) = (Raise e, mid) →
  post_try D request c11_file bw_file {| locals := initial_locals D; world := w |}
  = (Raise e,
     parsed_frame c11_err bw_err (serialize D c11_data bw_data) None false mid w).
Proof.
  intros H1 H2 H3. unfold post_try. run. rewrite H1. run. rewrite H2. run.
  unfold on_locals, on_world. cbn [world locals]. rewrite H3. reflexivity.
Qed.

(** The text the view has just written is read back as written: the rows
    under ["c11_data"] first, then those under ["bw_data"]. *)
Lemma loads_serialize (c11_data : list (C11Record D)) (bw_data : list (BWRecord D)) :
  Json.loads (serialize D c11_data bw_data)
  = Some [(Py.lit "c11_data", bw_str D <$> bw_data);
          (Py.lit "bw_data", c11_str D <$> c11_data)].
Proof. apply JsonFacts.loads_two_members. Qed.

Lemma uploaded_order_numbers_serialize c11_data bw_data :
  uploaded_order_numbers (serialize D c11_data bw_data)
  = values_order_numbers [bw_str D <$> bw_data; c11_str D <$> c11_data] [].
Proof. unfold uploaded_order_numbers. rewrite loads_serialize. reflexivity. Qed.

Lemma post_try_read_ok request (c11_file bw_file : UploadedFile)
    c11_data c11_err bw_data bw_err (stats : Statistics D) (mid : list Project) w :
  parse_c11_file D c11_file = Ok (c11_data, c11_err) →
  parse_bw_file D bw_file = Ok (bw_data, bw_err) →
  build_objects D c11_data bw_data (projects w) = (Ok stats, mid) →
  let s1 := parsed_frame c11_err bw_err (serialize D c11_data bw_data)
              (Some stats) true mid w in
  post_try D request c11_file bw_file {| locals := initial_locals D; world := w |}
  = match uploaded_order_numbers (serialize D c11_data bw_data) with
    | Raise e => (Raise e, s1)
    | Ok nums =>
        let extra_projects := exclude_order_number_in nums mid in
        for_each extra_projects (delete D)
          (on_world D (add_log (Info_deleting_projects (length extra_projects)
                                  extra_projects)) s1)
    end.
Proof.
  intros H1 H2 H3. unfold post_try. run. rewrite H1. run. rewrite H2. run.
  unfold on_locals, on_world. cbn [world locals]. rewrite H3. run.
  destruct (uploaded_order_numbers (serialize D c11_data bw_data)); reflexivity.
Qed.

(** The deletion loop removes the rows up to the first refusal, by primary
    key, and raises what the refusal raised. *)
Lemma for_each_delete (l : list Project) s :
  for_each l (delete D) s
  = (match first_fault D l with Some e => Raise e | None => Ok tt end,
     on_world D (set_projects (filter (λ q, pk q ∉ pk <$> deleted_prefix D l))) s).
Proof.
  revert s. induction l as [|p l IH]; intros s.
  - simpl. unfold ret, on_world, set_projects. destruct s as [ls [ps us ms lg cf nw]].
    simpl. rewrite filter_all; [reflexivity|]. intros q Hq. inversion Hq.
  - cbn [for_each deleted_prefix first_fault]. run. unfold delete at 1.
    destruct (delete_fault D p) as [e|].
    + unfold raise, on_world, set_projects. destruct s as [ls [ps us ms lg cf nw]].
      simpl. rewrite filter_all; [reflexivity|]. intros q Hq. inversion Hq.
    + unfold modify. rewrite IH. f_equal.
      destruct s as [ls [ps us ms lg cf nw]]. unfold on_world, set_projects. simpl.
      do 2 f_equal. rewrite list_filter_filter. apply list_filter_iff.
      intros q. rewrite not_elem_of_cons. tauto.
Qed.

Lemma first_fault_None_prefix (l : list Project) :
  first_fault D l = None → deleted_prefix D l = l.
Proof.
  induction l as [|p l IH]; [reflexivity|]. simpl.
  destruct (delete_fault D p); [discriminate|]. intros H. f_equal. auto.
Qed.

Lemma deleted_prefix_prefix (l : list Project) : deleted_prefix D l `prefix_of` l.
Proof.
  induction l as [|p l IH]; [reflexivity|]. simpl.
  destruct (delete_fault D p); [apply prefix_nil|]. apply prefix_cons, IH.
Qed.

Lemma deleted_prefix_sublist (l : list Project) :
  deleted_prefix D l `sublist_of` l.
Proof.
  induction l as [|p l IH]; [reflexivity|]. simpl.
  destruct (delete_fault D p); [apply sublist_nil_l|]. apply sublist_skip, IH.
Qed.

(** What follows the [try] block leaves the projects alone, appends one
    upload row built from the locals, and adds the message and the log
    entry of the [except] clause that caught the exception, if one did. *)
Lemma post_finish_world request (c11_file bw_file : UploadedFile)
    (r : result unit) s :
  let w' := snd (post_finish D request c11_file bw_file r s) in
  projects w' = projects (world D s)
  ∧ uploads w'
    = uploads (world D s)
      ++ [{| creator := user request;
             file_name := upload_file_name c11_file bw_file;
             file_content := file_content_var D (locals D s);
             read_successful := upload_successful D (locals D s);
             timestamp := now (world D s) |}]
  ∧ messages w'
    = messages (world D s)
      ++ match r with
         | Raise e => if is_Exception e then [failure_message e] else []
         | Ok _ => []
         end
  ∧ log w'
    = log (world D s)
      ++ match r with
         | Raise e =>
             if is_Exception e && negb (is_WrongExcelFileException e)
                && negb (is_OSError e)
             then [Error_files_upload e (user request)] else []
         | Ok _ => []
         end.
Proof.
  unfold post_finish, post_except, failure_message.
  destruct s as [ls [ps us ms lg cf nw]]. cbn [locals world].
  destruct r as [[]|e]; [|destruct e];
    destruct (upload_successful D ls) eqn:Hflag;
    simpl; rewrite ?app_nil_r, ?Hflag; repeat split; reflexivity.
Qed.

(** The [try] block writes neither uploads nor messages, and once both
    files are parsed the text it leaves in [file_content] is their
    serialisation. *)
Lemma post_try_frame request (c11_file bw_file : UploadedFile) w :
  let s := snd (post_try D request c11_file bw_file
                  {| locals := initial_locals D; world := w |}) in
  uploads (world D s) = uploads w ∧ messages (world D s) = messages w
  ∧ now (world D s) = now w.
Proof.
  destruct (parse_c11_file D c11_file) as [[c11_data c11_err]|e] eqn:H1.
  - destruct (parse_bw_file D bw_file) as [[bw_data bw_err]|e] eqn:H2.
    + destruct (build_objects D c11_data bw_data (projects w))
        as [[stats|e] mid] eqn:H3.
      * rewrite (post_try_read_ok _ _ _ _ _ _ _ _ _ _ H1 H2 H3). cbv zeta.
        destruct (uploaded_order_numbers _) as [nums|e];
          [rewrite for_each_delete|]; simpl; auto.
      * rewrite (post_try_build_raises _ _ _ _ _ _ _ _ _ _ H1 H2 H3). simpl; auto.
    + rewrite (post_try_bw_raises _ _ _ _ _ _ _ H1 H2). simpl; auto.
  - rewrite (post_try_c11_raises _ _ _ _ _ H1). simpl; auto.
Qed.

Lemma post_try_file_content request (c11_file bw_file : UploadedFile)
    c11_data c11_err bw_data bw_err w :
  parse_c11_file D c11_file = Ok (c11_data, c11_err) →
  parse_bw_file D bw_file = Ok (bw_data, bw_err) →
  file_content_var D (locals D (snd (post_try D request c11_file bw_file
                                       {| locals := initial_locals D; world := w |})))
  = serialize D c11_data bw_data.
Proof.
  intros H1 H2.
  destruct (build_objects D c11_data bw_data (projects w)) as [[stats|e] mid] eqn:H3.
  - rewrite (post_try_read_ok _ _ _ _ _ _ _ _ _ _ H1 H2 H3). cbv zeta.
    destruct (uploaded_order_numbers _) as [nums|e];
      [rewrite for_each_delete|]; reflexivity.
  - rewrite (post_try_build_raises _ _ _ _ _ _ _ _ _ _ H1 H2 H3). reflexivity.
Qed.

Lemma reaches_try_true w request :
  reaches_try D w request = true
  ↔ fst (post_allowed D w request) = true ∧ form_is_valid D request = true
    ∧ is_Some (FILES_c11_file request) ∧ is_Some (FILES_bw_file request).
Proof.
  unfold reaches_try. rewrite !andb_true_iff, !bool_decide_eq_true. tauto.
Qed.

Lemma slice_0_99 {A} (l : list A) : Py.slice 0 99 l = take 99 l.
Proof.
  unfold Py.slice, Py.slice_bound. simpl.
  rewrite (Z.min_l 0) by lia. rewrite Z.sub_0_r.
  change (drop (Z.to_nat 0) l) with l.
  destruct (decide (99 ≤ Z.of_nat (length l))) as [Hl|Hl].
  - rewrite Z.min_l by lia. reflexivity.
  - rewrite Z.min_r, Nat2Z.id by lia.
    rewrite (take_ge l (length l)), (take_ge l 99) by lia. reflexivity.
Qed.

End PostFacts.

(** ** The audit record *)

(** C4 (as amended). A POST that reaches the [try] block — the gate admits
    it, the form is valid and both files are there — creates exactly one
    upload row, whatever the [try] block does, also when it raises an
    exception that no handler catches; a POST that the gate refuses or whose
    form is invalid creates none. Earlier rows are kept as they are. *)
Theorem one_upload_row_per_admitted_post (D : Collaborators) (w : World)
    (request : Request) :
  ∃ created : list Upload,
    uploads (snd (post D w request)) = uploads w ++ created
    ∧ length created = if reaches_try D w request then 1%nat else 0%nat.
Proof.
  destruct (reaches_try D w request) eqn:Hr.
  - apply reaches_try_true in Hr as (Ha & Hv & [f1 H1] & [f2 H2]).
    rewrite (post_admitted D w request f1 f2 Ha Hv H1 H2). cbv zeta.
    destruct (post_finish_world D request f1 f2
                (fst (post_try D request f1 f2
                   {| locals := initial_locals D;
                      world := snd (check_upload_allow D w request) |}))
                (snd (post_try D request f1 f2
                   {| locals := initial_locals D;
                      world := snd (check_upload_allow D w request) |})))
      as (_ & Hu & _).
    rewrite Hu.
    destruct (post_try_frame D request f1 f2 (snd (check_upload_allow D w request)))
      as (-> & _).
    destruct (check_upload_allow_frame D w request) as (_ & -> & _).
    eexists. split; reflexivity.
  - exists []. rewrite app_nil_r. split; [|reflexivity].
    assert (uploads (snd (post_allowed D w request)) = uploads w) as Hw1.
    { rewrite post_allowed_world. apply (check_upload_allow_frame D w request). }
    unfold reaches_try in Hr. rewrite !andb_false_iff in Hr.
    unfold post. destruct (post_allowed D w request) as [allowed w1].
    simpl in Hw1, Hr. destruct allowed; [|exact Hw1].
    destruct (form_is_valid D request); [|exact Hw1].
    destruct (FILES_c11_file request) as [f1|]; [|exact Hw1].
    destruct (FILES_bw_file request) as [f2|]; [|exact Hw1].
    exfalso. rewrite !bool_decide_eq_false in Hr.
    destruct Hr as [[[Hr|Hr]|Hr]|Hr]; try discriminate; apply Hr; eauto.
Qed.



(** The row an admitted POST appends to the upload table. *)
Lemma post_appends_upload (D : Collaborators) (w : World) (request : Request)
    (c11_file bw_file : UploadedFile) :
  fst (post_allowed D w request) = true →
  form_is_valid D request = true →
  FILES_c11_file request = Some c11_file →
  FILES_bw_file request = Some bw_file →
  let s := snd (post_try D request c11_file bw_file
                  {| locals := initial_locals D;
                     world := snd (check_upload_allow D w request) |}) in
  uploads (snd (post D w request))
  = uploads w ++ [{| creator := user request;
                     file_name := upload_file_name c11_file bw_file;
                     file_content := file_content_var D (locals D s);
                     read_successful := upload_successful D (locals D s);
                     timestamp := now w |}].
Proof.
  intros Ha Hv H1 H2 s.
  rewrite (post_admitted D w request c11_file bw_file Ha Hv H1 H2). cbv zeta.
  destruct (post_finish_world D request c11_file bw_file
              (fst (post_try D request c11_file bw_file
                 {| locals := initial_locals D;
                    world := snd (check_upload_allow D w request) |})) s)
    as (_ & Hu & _).
  fold s. rewrite Hu.
  destruct (post_try_frame D request c11_file bw_file
              (snd (check_upload_allow D w request))) as (Hups & _ & Hnow).
  fold s in Hups, Hnow. rewrite Hups, Hnow.
  destruct (check_upload_allow_frame D w request) as (_ & -> & _ & _ & ->).
  reflexivity.
Qed.

(** C7. The file-name label stored with an upload is the text
    [c11: <name> - bw: <name>] cut to its first 99 characters, whatever the
    two names are; so it is at most 99 characters long. *)
Theorem upload_label_truncated (D : Collaborators) (w : World) (request : Request)
    (c11_file bw_file : UploadedFile) :
  fst (post_allowed D w request) = true →
  form_is_valid D request = true →
  FILES_c11_file request = Some c11_file →
  FILES_bw_file request = Some bw_file →
  ∃ u : Upload,
    last (uploads (snd (post D w request))) = Some u
    ∧ file_name u
      = take 99 (Py.lit "c11: " ++ name c11_file ++ Py.lit " - bw: " ++ name bw_file)
    ∧ (length (file_name u) ≤ 99)%nat.
Proof.
  intros Ha Hv H1 H2.
  rewrite (post_appends_upload D w request c11_file bw_file Ha Hv H1 H2).
  eexists. rewrite last_snoc. split; [reflexivity|]. cbn [file_name].
  unfold upload_file_name. rewrite slice_0_99. split; [reflexivity|].
  rewrite length_take. lia.
Qed.

(** C10. When both files parse, the text stored with the upload is a JSON
    object in which the key "c11_data" holds the stringified BW records and
    the key "bw_data" the stringified C11 records: the labels are swapped. *)
Theorem stored_content_swaps_labels (D : Collaborators) (w : World)
    (request : Request) (c11_file bw_file : UploadedFile)
    (c11_data : list (C11Record D)) (c11_err : list (C11Error D))
    (bw_data : list (BWRecord D)) (bw_err : list (BWError D)) :
  fst (post_allowed D w request) = true →
  form_is_valid D request = true →
  FILES_c11_file request = Some c11_file →
  FILES_bw_file request = Some bw_file →
  parse_c11_file D c11_file = Ok (c11_data, c11_err) →
  parse_bw_file D bw_file = Ok (bw_data, bw_err) →
  ∃ u : Upload,
    last (uploads (snd (post D w request))) = Some u
    ∧ file_content u
      = Py.lit "{" ++ Py.quoted "c11_data" ++ Py.lit ": "
        ++ Json.dumps (bw_str D <$> bw_data)
        ++ Py.lit ", " ++ Py.quoted "bw_data" ++ Py.lit ": "
        ++ Json.dumps (c11_str D <$> c11_data)
        ++ Py.lit "}"
    ∧ Json.loads (file_content u)
      = Some [(Py.lit "c11_data", bw_str D <$> bw_data);
              (Py.lit "bw_data", c11_str D <$> c11_data)].
Proof.
  intros Ha Hv H1 H2 Hc11 Hbw.
  rewrite (post_appends_upload D w request c11_file bw_file Ha Hv H1 H2).
  eexists. rewrite last_snoc. split; [reflexivity|]. cbn [file_content].
  rewrite (post_try_file_content D request c11_file bw_file _ _ _ _ _ Hc11 Hbw).
  split; [reflexivity|]. apply loads_serialize.
Qed.

(** ** Reconciliation *)

(** C2. If parsing either file raises — a whole-file structural failure
    such as [WrongExcelFileException], or any other exception — the stale
    projects are never looked up and the project table is after the attempt
    what it was before. *)
Theorem parse_failure_leaves_store (D : Collaborators) (w : World)
    (request : Request) (c11_file bw_file : UploadedFile) (e : exn) :
  FILES_c11_file request = Some c11_file →
  FILES_bw_file request = Some bw_file →
  parse_c11_file D c11_file = Raise e ∨ parse_bw_file D bw_file = Raise e →
  let w' := snd (post D w request) in
  projects w' = projects w
  ∧ order_number <$> projects w' = order_number <$> projects w
  ∧ ∀ n l, Info_deleting_projects n l ∈ log w' →
           Info_deleting_projects n l ∈ log w.
Proof.
  intros H1 H2 Hraise w'.
  destruct (check_upload_allow_frame D w request) as (Hp & _ & Hl & _).
  cut (projects w' = projects w
       ∧ ∀ n l, Info_deleting_projects n l ∈ log w' →
                Info_deleting_projects n l ∈ log w).
  { intros [-> ?]. auto. }
  subst w'.
  destruct (fst (post_allowed D w request) && form_is_valid D request) eqn:Hgo.
  - apply andb_true_iff in Hgo as [Ha Hv].
    rewrite (post_admitted D w request c11_file bw_file Ha Hv H1 H2). cbv zeta.
    assert (∃ e' s, post_try D request c11_file bw_file
                      {| locals := initial_locals D;
                         world := snd (check_upload_allow D w request) |}
                    = (Raise e', s)
                    ∧ world D s = snd (check_upload_allow D w request))
      as (e' & s & -> & Hs).
    { destruct (parse_c11_file D c11_file) as [[c11_data c11_err]|e1] eqn:Hc11.
      - destruct Hraise as [|Hbw]; [discriminate|].
        rewrite (post_try_bw_raises D request _ _ _ _ _ _ Hc11 Hbw). eauto.
      - rewrite (post_try_c11_raises D request _ _ _ _ Hc11). eauto. }
    cbn [fst snd].
    destruct (post_finish_world D request c11_file bw_file (Raise e') s)
      as (-> & _ & _ & ->).
    rewrite Hs, Hp, Hl. split; [reflexivity|].
    intros n l [Hin|Hin]%elem_of_app; [exact Hin|].
    destruct (_ && _); [|inversion Hin].
    apply list_elem_of_singleton in Hin. discriminate.
  - rewrite post_refused by exact Hgo. rewrite Hp, Hl. auto.
Qed.

Lemma filter_ext_elem {A} (P Q : A → Prop) `{!∀ x, Decision (P x)}
    `{!∀ x, Decision (Q x)} (l : list A) :
  (∀ x, x ∈ l → (P x ↔ Q x)) → filter P l = filter Q l.
Proof.
  induction l as [|x l IH]; intros Hext; [reflexivity|].
  rewrite !filter_cons.
  rewrite IH by (intros y Hy; apply Hext; right; exact Hy).
  pose proof (Hext x ltac:(left)) as Hx.
  destruct (decide (P x)) as [HP|HP], (decide (Q x)) as [HQ|HQ];
    try reflexivity; tauto.
Qed.

(** A primary key names one row. *)
Lemma pk_names_one_row (l : list Project) (p q : Project) :
  NoDup (pk <$> l) → p ∈ l → q ∈ l → pk p = pk q → p = q.
Proof.
  induction l as [|x l IH]; intros Hnd Hp Hq Hpk; [inversion Hp|].
  rewrite fmap_cons in Hnd. apply NoDup_cons in Hnd as [Hx Hnd].
  apply elem_of_cons in Hp as [->|Hp], Hq as [->|Hq]; auto.
  - exfalso. apply Hx. rewrite Hpk. apply list_elem_of_fmap. eauto.
  - exfalso. apply Hx. rewrite <- Hpk. apply list_elem_of_fmap. eauto.
Qed.

(** Deleting rows of the table by primary key removes those rows and no
    others. *)
Lemma delete_by_pk_exact (store del : list Project) :
  NoDup (pk <$> store) → del ⊆ store →
  filter (λ q, pk q ∉ pk <$> del) store = filter (λ q, q ∉ del) store.
Proof.
  intros Hnd Hsub. apply filter_ext_elem. intros q Hq.
  split; intros Hn Hin; apply Hn.
  - apply list_elem_of_fmap. eauto.
  - apply list_elem_of_fmap in Hin as (d & Hpk & Hd).
    rewrite (pk_names_one_row store q d Hnd Hq (Hsub d Hd) Hpk). exact Hd.
Qed.

(** The rows of a duplicate-free list that belong to one of its sublists
    are that sublist. *)
Lemma filter_elem_of_sublist {A} `{!EqDecision A} (l' l : list A) :
  l' `sublist_of` l → NoDup l → filter (λ x, x ∈ l') l = l'.
Proof.
  induction 1 as [|x l1 l2 Hsub IH|x l1 l2 Hsub IH]; intros Hnd.
  - reflexivity.
  - apply NoDup_cons in Hnd as [Hx Hnd].
    rewrite filter_cons_True by left. f_equal.
    etrans; [|apply (IH Hnd)]. apply filter_ext_elem. intros y Hy.
    rewrite elem_of_cons. split; [|auto]. intros [->|]; [contradiction|assumption].
  - apply NoDup_cons in Hnd as [Hx Hnd].
    rewrite filter_cons_False; [auto|].
    intros Hin. apply Hx. eapply elem_of_sublist; eauto.
Qed.

Lemma deleted_after_filter (store del : list Project) :
  del `sublist_of` store → NoDup store →
  deleted store (filter (λ q, q ∉ del) store) = del.
Proof.
  intros Hsub Hnd. unfold deleted.
  etrans; [|apply (filter_elem_of_sublist del store Hsub Hnd)].
  apply filter_ext_elem. intros p Hp. rewrite list_elem_of_filter.
  split.
  - intros Hn. destruct (decide (p ∈ del)); [assumption|]. exfalso. auto.
  - intros Hin [Hn _]. contradiction.
Qed.

Section ReconcileFacts.

Context (D : Collaborators).

(** The project table after an attempt whose parsing and merging
    succeeded and whose order numbers could be read: the rows deleted are
    those of the stale set that precede the first refused deletion. *)
Lemma post_projects_after (w : World) (request : Request)
    (c11_file bw_file : UploadedFile)
    (c11_data : list (C11Record D)) (c11_err : list (C11Error D))
    (bw_data : list (BWRecord D)) (bw_err : list (BWError D))
    (stats : Statistics D) (mid : list Project) (nums : list Z) :
  fst (post_allowed D w request) = true →
  form_is_valid D request = true →
  FILES_c11_file request = Some c11_file →
  FILES_bw_file request = Some bw_file →
  parse_c11_file D c11_file = Ok (c11_data, c11_err) →
  parse_bw_file D bw_file = Ok (bw_data, bw_err) →
  build_objects D c11_data bw_data (projects w) = (Ok stats, mid) →
  uploaded_order_numbers (serialize D c11_data bw_data) = Ok nums →
  NoDup (pk <$> mid) →
  projects (snd (post D w request))
  = filter (λ q, q ∉ deleted_prefix D (stale nums mid)) mid
  ∧ read_successful <$> last (uploads (snd (post D w request))) = Some true.
Proof.
  intros Ha Hv H1 H2 Hc11 Hbw Hbuild Hnums Hnd.
  destruct (check_upload_allow_frame D w request) as (Hp & _).
  rewrite <- Hp in Hbuild.
  rewrite (post_appends_upload D w request c11_file bw_file Ha Hv H1 H2).
  rewrite (post_admitted D w request c11_file bw_file Ha Hv H1 H2). cbv zeta.
  rewrite (post_try_read_ok D request _ _ _ _ _ _ _ _ _ Hc11 Hbw Hbuild).
  cbv zeta. rewrite Hnums, for_each_delete. cbn [fst snd].
  split; [|rewrite last_snoc; reflexivity].
  match goal with
  | |- projects (snd (post_finish D request c11_file bw_file ?r ?s)) = _ =>
      destruct (post_finish_world D request c11_file bw_file r s) as (-> & _)
  end.
  simpl. unfold exclude_order_number_in. fold (stale nums mid).
  apply delete_by_pk_exact; [exact Hnd|].
  intros p Hp'. eapply list_elem_of_filter.
  eapply elem_of_sublist; [exact Hp'|apply deleted_prefix_sublist].
Qed.

Lemma stale_sublist (nums : list Z) (store : list Project) :
  stale nums store `sublist_of` store.
Proof. apply sublist_filter. Qed.

End ReconcileFacts.

(** The [try] block runs to completion exactly when both files parse, the
    merge succeeds, the order numbers can be read back and no deletion of a
    stale project is refused. *)
Lemma post_try_completes_iff (D : Collaborators) (w : World) (request : Request)
    (c11_file bw_file : UploadedFile) :
  fst (post_try D request c11_file bw_file
         {| locals := initial_locals D; world := w |}) = Ok tt
  ↔ ∃ c11_data c11_err bw_data bw_err stats mid nums,
      parse_c11_file D c11_file = Ok (c11_data, c11_err)
      ∧ parse_bw_file D bw_file = Ok (bw_data, bw_err)
      ∧ build_objects D c11_data bw_data (projects w) = (Ok stats, mid)
      ∧ uploaded_order_numbers (serialize D c11_data bw_data) = Ok nums
      ∧ first_fault D (stale nums mid) = None.
Proof.
  split.
  - destruct (parse_c11_file D c11_file) as [[c11_data c11_err]|e] eqn:Hc11;
      [|rewrite (post_try_c11_raises D request _ _ _ _ Hc11); discriminate].
    destruct (parse_bw_file D bw_file) as [[bw_data bw_err]|e] eqn:Hbw;
      [|rewrite (post_try_bw_raises D request _ _ _ _ _ _ Hc11 Hbw); discriminate].
    destruct (build_objects D c11_data bw_data (projects w))
      as [[stats|e] mid] eqn:Hb;
      [|rewrite (post_try_build_raises D request _ _ _ _ _ _ _ _ _ Hc11 Hbw Hb);
        discriminate].
    rewrite (post_try_read_ok D request _ _ _ _ _ _ _ _ _ Hc11 Hbw Hb). cbv zeta.
    destruct (uploaded_order_numbers _) as [nums|e] eqn:Hnums; [|discriminate].
    rewrite for_each_delete. cbn [fst]. unfold exclude_order_number_in.
    fold (stale nums mid).
    destruct (first_fault D (stale nums mid)) eqn:Hf; [discriminate|].
    intros _. exists c11_data, c11_err, bw_data, bw_err, stats, mid, nums. auto.
  - intros (c11_data & c11_err & bw_data & bw_err & stats & mid & nums
            & Hc11 & Hbw & Hb & Hnums & Hf).
    rewrite (post_try_read_ok D request _ _ _ _ _ _ _ _ _ Hc11 Hbw Hb). cbv zeta.
    rewrite Hnums, for_each_delete. cbn [fst]. unfold exclude_order_number_in.
    fold (stale nums mid). rewrite Hf. reflexivity.
Qed.

(** After an attempt that runs to completion, the projects deleted from the
    table the merge left are the stale set of the numbers [nums] read back
    from the stored text. *)
Lemma deleted_is_stale_of_read_numbers (D : Collaborators) (w : World)
    (request : Request) (c11_file bw_file : UploadedFile)
    (c11_data : list (C11Record D)) (c11_err : list (C11Error D))
    (bw_data : list (BWRecord D)) (bw_err : list (BWError D))
    (stats : Statistics D) (mid : list Project) (nums : list Z) :
  fst (post_allowed D w request) = true →
  form_is_valid D request = true →
  FILES_c11_file request = Some c11_file →
  FILES_bw_file request = Some bw_file →
  parse_c11_file D c11_file = Ok (c11_data, c11_err) →
  parse_bw_file D bw_file = Ok (bw_data, bw_err) →
  build_objects D c11_data bw_data (projects w) = (Ok stats, mid) →
  uploaded_order_numbers (serialize D c11_data bw_data) = Ok nums →
  first_fault D (stale nums mid) = None →
  NoDup (pk <$> mid) →
  let after := projects (snd (post D w request)) in
  deleted mid after = stale nums mid
  ∧ after = filter (λ p, order_number p ∈ nums) mid
  ∧ ∀ p, p ∈ mid → (p ∈ after ↔ order_number p ∈ nums).
Proof.
  intros Ha Hv H1 H2 Hc11 Hbw Hbuild Hnums Hfault Hnd after.
  destruct (post_projects_after D w request c11_file bw_file c11_data c11_err
              bw_data bw_err stats mid nums Ha Hv H1 H2 Hc11 Hbw Hbuild Hnums Hnd)
    as [Hafter _].
  rewrite (first_fault_None_prefix D _ Hfault) in Hafter.
  assert (NoDup mid) as Hnd' by (eapply NoDup_fmap_1; exact Hnd).
  assert (after = filter (λ p, order_number p ∈ nums) mid) as Heq.
  { subst after. rewrite Hafter. apply filter_ext_elem. intros p Hp.
    unfold stale. rewrite list_elem_of_filter. split.
    - intros Hn. destruct (decide (order_number p ∈ nums)); [assumption|].
      exfalso. apply Hn. auto.
    - intros Hin [Hn _]. contradiction. }
  split; [|split].
  - subst after. rewrite Hafter.
    apply deleted_after_filter; [apply stale_sublist|exact Hnd'].
  - exact Heq.
  - intros p Hp. rewrite Heq, list_elem_of_filter. tauto.
Qed.

(** C3 (as amended). Deleting the stale projects is not atomic. Once both
    files have parsed: if the merge or the reading of the order numbers
    raises, no project is deleted; otherwise the stale projects are deleted
    one at a time in query order, and the projects removed are exactly the
    stale ones that precede the first deletion that raises — all of them
    when none raises, in which case the attempt is recorded as successful. *)
Theorem deletion_stops_at_first_failure (D : Collaborators) (w : World)
    (request : Request) (c11_file bw_file : UploadedFile)
    (c11_data : list (C11Record D)) (c11_err : list (C11Error D))
    (bw_data : list (BWRecord D)) (bw_err : list (BWError D))
    (merged : result (Statistics D)) (mid : list Project) :
  fst (post_allowed D w request) = true →
  form_is_valid D request = true →
  FILES_c11_file request = Some c11_file →
  FILES_bw_file request = Some bw_file →
  parse_c11_file D c11_file = Ok (c11_data, c11_err) →
  parse_bw_file D bw_file = Ok (bw_data, bw_err) →
  build_objects D c11_data bw_data (projects w) = (merged, mid) →
  NoDup (pk <$> mid) →
  let w' := snd (post D w request) in
  match merged, uploaded_order_numbers (serialize D c11_data bw_data) with
  | Ok _, Ok nums =>
      deleted mid (projects w') = deleted_prefix D (stale nums mid)
      ∧ deleted_prefix D (stale nums mid) `prefix_of` stale nums mid
      ∧ (first_fault D (stale nums mid) = None →
         deleted mid (projects w') = stale nums mid
         ∧ read_successful <$> last (uploads w') = Some true)
  | _, _ => projects w' = mid
  end.
Proof.
  intros Ha Hv H1 H2 Hc11 Hbw Hbuild Hnd w'.
  assert (NoDup mid) as Hnd' by (eapply NoDup_fmap_1; exact Hnd).
  destruct merged as [stats|e].
  - destruct (uploaded_order_numbers (serialize D c11_data bw_data))
      as [nums|e] eqn:Hnums.
    + destruct (post_projects_after D w request c11_file bw_file c11_data c11_err
                  bw_data bw_err stats mid nums Ha Hv H1 H2 Hc11 Hbw Hbuild Hnums Hnd)
        as [Hafter Hflag].
      assert (deleted mid (projects w') = deleted_prefix D (stale nums mid)) as Hdel.
      { subst w'. rewrite Hafter. apply deleted_after_filter; [|exact Hnd'].
        etrans; [apply deleted_prefix_sublist|apply stale_sublist]. }
      split; [exact Hdel|]. split; [apply deleted_prefix_prefix|].
      intros Hfault. split; [|exact Hflag].
      rewrite Hdel. apply first_fault_None_prefix, Hfault.
    + subst w'.
      destruct (check_upload_allow_frame D w request) as (Hp & _).
      rewrite <- Hp in Hbuild.
      rewrite (post_admitted D w request c11_file bw_file Ha Hv H1 H2). cbv zeta.
      rewrite (post_try_read_ok D request _ _ _ _ _ _ _ _ _ Hc11 Hbw Hbuild).
      cbv zeta. rewrite Hnums. cbn [fst snd].
      match goal with
      | |- projects (snd (post_finish D request c11_file bw_file ?r ?s)) = _ =>
          destruct (post_finish_world D request c11_file bw_file r s) as (-> & _)
      end.
      reflexivity.
  - subst w'.
    destruct (check_upload_allow_frame D w request) as (Hp & _).
    rewrite <- Hp in Hbuild.
    rewrite (post_admitted D w request c11_file bw_file Ha Hv H1 H2). cbv zeta.
    rewrite (post_try_build_raises D request _ _ _ _ _ _ _ _ _ Hc11 Hbw Hbuild).
    cbn [fst snd].
    match goal with
    | |- projects (snd (post_finish D request c11_file bw_file ?r ?s)) = _ =>
        destruct (post_finish_world D request c11_file bw_file r s) as (-> & _)
    end.
    reflexivity.
Qed.

(** What the flag stored with an upload records: that parsing and merging
    went through. Whatever happens after line 103 — reading the order
    numbers back, deleting the stale projects — does not reach it. *)
Lemma read_successful_iff_read_stage (D : Collaborators) (w : World)
    (request : Request) (c11_file bw_file : UploadedFile) :
  fst (post_allowed D w request) = true →
  form_is_valid D request = true →
  FILES_c11_file request = Some c11_file →
  FILES_bw_file request = Some bw_file →
  read_successful <$> last (uploads (snd (post D w request)))
  = Some (match fst (fst (read_stage D (projects w) c11_file bw_file)) with
          | Ok _ => true
          | Raise _ => false
          end).
Proof.
  intros Ha Hv H1 H2.
  rewrite (post_appends_upload D w request c11_file bw_file Ha Hv H1 H2).
  rewrite last_snoc. cbn [fmap option_fmap option_map read_successful]. f_equal.
  destruct (check_upload_allow_frame D w request) as (Hp & _).
  unfold read_stage. rewrite <- Hp.
  destruct (parse_c11_file D c11_file) as [[c11_data c11_err]|e] eqn:Hc11.
  - destruct (parse_bw_file D bw_file) as [[bw_data bw_err]|e] eqn:Hbw.
    + destruct (build_objects D c11_data bw_data _) as [[stats|e] mid] eqn:Hb.
      * rewrite (post_try_read_ok D request _ _ _ _ _ _ _ _ _ Hc11 Hbw Hb).
        cbv zeta.
        destruct (uploaded_order_numbers _) as [nums|e];
          [rewrite for_each_delete|]; reflexivity.
      * rewrite (post_try_build_raises D request _ _ _ _ _ _ _ _ _ Hc11 Hbw Hb).
        reflexivity.
    + rewrite (post_try_bw_raises D request _ _ _ _ _ _ Hc11 Hbw). reflexivity.
  - rewrite (post_try_c11_raises D request _ _ _ _ Hc11). reflexivity.
Qed.

(** ** What the caller sees *)

(** C8 (as amended). For a POST that reaches the [try] block: when parsing
    and merging succeed and the rest of the block runs to completion, the
    caller gets the statistics page, which carries the statistics together
    with the two per-row error lists, and no message; when parsing or
    merging raises, the caller gets the upload form with the two error lists
    collected so far, and the message of the handler that caught the
    exception — a warning for [WrongExcelFileException] and [OSError], an
    error-level message for any other exception. *)
Theorem output_of_post (D : Collaborators) (w : World) (request : Request)
    (c11_file bw_file : UploadedFile) :
  fst (post_allowed D w request) = true →
  form_is_valid D request = true →
  FILES_c11_file request = Some c11_file →
  FILES_bw_file request = Some bw_file →
  let w1 := snd (check_upload_allow D w request) in
  let tried := post_try D request c11_file bw_file
                 {| locals := initial_locals D; world := w1 |} in
  match read_stage D (projects w) c11_file bw_file with
  | (Ok stats, c11_err, bw_err) =>
      fst tried = Ok tt →
      fst (post D w request) = Ok (render_statistics (Some stats) bw_err c11_err)
      ∧ messages (snd (post D w request)) = messages w1
  | (Raise e, c11_err, bw_err) =>
      fst (post D w request) = Ok (render_form_errors enabled_form bw_err c11_err)
      ∧ messages (snd (post D w request))
        = messages w1 ++ (if is_Exception e then [failure_message e] else [])
  end.
Proof.
  intros Ha Hv H1 H2. cbv zeta.
  destruct (check_upload_allow_frame D w request) as (Hp & _).
  rewrite (post_admitted D w request c11_file bw_file Ha Hv H1 H2). cbv zeta.
  unfold read_stage. rewrite <- Hp.
  set (w1 := snd (check_upload_allow D w request)).
  destruct (parse_c11_file D c11_file) as [[c11_data c11_err]|e] eqn:Hc11.
  - destruct (parse_bw_file D bw_file) as [[bw_data bw_err]|e] eqn:Hbw.
    + destruct (build_objects D c11_data bw_data (projects w1))
        as [[stats|e] mid] eqn:Hb; cbn [fst].
      * rewrite (post_try_read_ok D request _ _ _ _ _ _ _ _ _ Hc11 Hbw Hb).
        cbv zeta.
        destruct (uploaded_order_numbers _) as [nums|e];
          [rewrite for_each_delete|]; cbn [fst snd]; [|discriminate].
        destruct (first_fault D _); [discriminate|]. intros _.
        split; reflexivity.
      * rewrite (post_try_build_raises D request _ _ _ _ _ _ _ _ _ Hc11 Hbw Hb).
        cbn [fst snd]. split; [reflexivity|].
        destruct (post_finish_world D request c11_file bw_file (Raise e)
                    (parsed_frame c11_err bw_err (serialize D c11_data bw_data)
                       None false mid w1)) as (_ & _ & -> & _).
        reflexivity.
    + rewrite (post_try_bw_raises D request _ _ _ _ _ _ Hc11 Hbw).
      cbn [fst snd]. split; [reflexivity|].
      match goal with
      | |- messages (snd (post_finish D request c11_file bw_file ?r ?s)) = _ =>
          destruct (post_finish_world D request c11_file bw_file r s)
            as (_ & _ & -> & _)
      end.
      reflexivity.
  - rewrite (post_try_c11_raises D request _ _ _ _ Hc11).
    cbn [fst snd]. split; [reflexivity|].
    match goal with
    | |- messages (snd (post_finish D request c11_file bw_file ?r ?s)) = _ =>
        destruct (post_finish_world D request c11_file bw_file r s)
          as (_ & _ & -> & _)
    end.
    reflexivity.
Qed.

(** C9. An actor who is neither a superuser nor in a permitted group never
    gets to the reconciliation: a POST returns the form with both file
    fields disabled and leaves the tables alone. But the POST says nothing
    about the denial — the log is as before and the only message, if any, is
    the cadence gate's — whereas a GET by the same actor logs it and
    surfaces it as a warning. *)
Theorem post_denial_is_silent (D : Collaborators) (w : World) (request : Request) :
  is_superuser (user request) = false →
  is_user_in_groups D (user request) upload_groups = false →
  let gated := snd (check_upload_allow D w request) in
  (fst (post D w request) = Ok (render_form disabled_form)
   ∧ projects (snd (post D w request)) = projects w
   ∧ uploads (snd (post D w request)) = uploads w
   ∧ log (snd (post D w request)) = log w
   ∧ messages (snd (post D w request)) = messages gated)
  ∧ (log (snd (get D w request))
     = log w ++ [Error_not_allowed_to_see_upload_content (user request)]
     ∧ messages (snd (get D w request))
       = messages gated
         ++ [(WARNING,
              Exception_msg (Py.lit "User not allowed to perform this action"))]).
Proof.
  intros Hsu Hgr gated.
  destruct (check_upload_allow_frame D w request) as (Hp & Hu & Hl & _).
  fold gated in Hp, Hu, Hl. split.
  - unfold post, post_allowed. rewrite Hsu, Hgr. fold gated.
    destruct (check_upload_allow D w request) as [allowed w1] eqn:Hc.
    subst gated. cbn [snd] in *. rewrite andb_false_r. cbn.
    auto.
  - unfold get, get_try. rewrite Hsu, Hgr.
    unfold mbind, M_bind, bind, modify, raise, ret. cbn beta iota.
    subst gated. destruct (check_upload_allow D w request) as [allowed w1].
    cbn [snd] in *. destruct allowed; cbn; rewrite Hl; auto.
Qed.

(** ** Worked examples *)

Module Examples.

Import Example.

Ltac compute_eq := reflexivity.
Ltac compute_dec := apply (bool_decide_unpack _); vm_compute; exact I.

(** The specification's end-to-end example: the store holds 101, 102 and
    103 and the upload brings 101 and 104. *)
Lemma end_to_end_rows :
  stale [104; 101] store_merged
  = [{| pk := 2; order_number := 102 |}; {| pk := 3; order_number := 103 |}]
  ∧ projects (snd (post healthy w0 (upload_request alice "101" "104")))
    = [{| pk := 1; order_number := 101 |}; {| pk := 4; order_number := 104 |}].
Proof. split; compute_eq. Qed.

(** C2, with a corrupt BW file: the table is untouched. *)
Lemma parse_failure_example :
  let w' := snd (post healthy w0 (upload_request alice "101" "corrupt")) in
  projects w' = projects w0
  ∧ order_number <$> projects w' = order_number <$> projects w0
  ∧ ∀ n l, Info_deleting_projects n l ∈ log w' →
           Info_deleting_projects n l ∈ log w0.
Proof.
  apply (parse_failure_leaves_store healthy w0 (upload_request alice "101" "corrupt")
           (file "c11.xlsx" "101") (file "bw.xlsx" "corrupt")
           (WrongExcelFileException (Py.lit "not a workbook")));
    [reflexivity | reflexivity | right; compute_eq].
Defined.

(** C3 fails as stated. Project 103 is protected: of the stale projects 102
    and 103 only 102 is deleted, which is neither all nor none. *)
Lemma partial_deletion_counterexample :
  ¬ all_or_nothing (stale [104; 101] store_merged)
      (projects (snd (post protected_103 w0 (upload_request alice "101" "104")))).
Proof.
  assert (projects (snd (post protected_103 w0 (upload_request alice "101" "104")))
          = [{| pk := 1; order_number := 101 |}; {| pk := 3; order_number := 103 |};
             {| pk := 4; order_number := 104 |}]) as -> by compute_eq.
  assert (stale [104; 101] store_merged
          = [{| pk := 2; order_number := 102 |}; {| pk := 3; order_number := 103 |}])
    as -> by compute_eq.
  intros [Hall|Hnone].
  - apply (Hall {| pk := 3; order_number := 103 |}).
    + compute_dec.
    + compute_dec.
  - specialize (Hnone {| pk := 2; order_number := 102 |}).
    assert ({| pk := 2; order_number := 102 |}
            ∉ [{| pk := 1; order_number := 101 |}; {| pk := 3; order_number := 103 |};
               {| pk := 4; order_number := 104 |}]) as Hn
      by compute_dec.
    apply Hn, Hnone. compute_dec.
Qed.

(** C3 as amended, on the same run: the deleted rows are the stale rows
    before the refused one. *)
Lemma partial_deletion_example :
  let w' := snd (post protected_103 w0 (upload_request alice "101" "104")) in
  match Ok 2%nat, uploaded_order_numbers (serialize protected_103 [101] [104]) with
  | Ok _, Ok nums =>
      deleted store_merged (projects w')
      = deleted_prefix protected_103 (stale nums store_merged)
      ∧ deleted_prefix protected_103 (stale nums store_merged)
        `prefix_of` stale nums store_merged
      ∧ (first_fault protected_103 (stale nums store_merged) = None →
         deleted store_merged (projects w') = stale nums store_merged
         ∧ read_successful <$> last (uploads w') = Some true)
  | _, _ => projects w' = store_merged
  end.
Proof.
  apply (deletion_stops_at_first_failure protected_103 w0
           (upload_request alice "101" "104")
           (file "c11.xlsx" "101") (file "bw.xlsx" "104")
           [101] [] [104] [] (Ok 2%nat) store_merged);
    try compute_eq.
  compute_dec.
Defined.

(** C4 fails as stated: a POST that the gate refuses, and one whose form is
    invalid, create no upload row. *)
Lemma refused_post_creates_no_upload :
  uploads (snd (post healthy w0 (upload_request mallory "101" "104"))) = uploads w0
  ∧ uploads (snd (post healthy w0 (empty_request alice))) = uploads w0
  ∧ length (uploads w0) ≠ S (length (uploads w0)).
Proof. repeat split; try compute_eq. simpl. lia. Qed.

(** C5 fails on the code. The deletion of project 103 raises after the flag
    was set: the upload is recorded as read successfully although the [try]
    block raised, an error message was issued and stale project 103 is still
    stored. *)
Lemma flag_true_after_failed_deletion :
  let request := upload_request alice "101" "104" in
  let w' := snd (post protected_103 w0 request) in
  fst (post_try protected_103 request (file "c11.xlsx" "101") (file "bw.xlsx" "104")
         {| locals := initial_locals protected_103;
            world := snd (check_upload_allow protected_103 w0 request) |})
  = Raise (OtherException (Py.lit "ProtectedError"))
  ∧ read_successful <$> last (uploads w') = Some true
  ∧ messages w'
    = [(ERROR, Error_while_uploading_files (OtherException (Py.lit "ProtectedError")))]
  ∧ projects w'
    = [{| pk := 1; order_number := 101 |}; {| pk := 3; order_number := 103 |};
       {| pk := 4; order_number := 104 |}]
  ∧ fst (post protected_103 w0 request)
    = Ok (render_statistics (D := protected_103) (Some 2%nat) [] []).
Proof. repeat split; compute_eq. Qed.

(** C6: cooldown of 7 days, last upload 3 days ago: refused, 4 days to go. *)
Lemma cadence_gate_example :
  days_to_next_upload healthy w_three_days_later (upload_request alice "101" "104") = 4
  ∧ check_upload_allow healthy w_three_days_later (upload_request alice "101" "104")
    = (false,
       add_message WARNING (Next_upload_possible_after 4) w_three_days_later).
Proof.
  destruct (cadence_gate healthy w_three_days_later
              (upload_request alice "101" "104")) as (_ & _ & H).
  apply H; compute_eq.
Defined.

(** C7 on a concrete upload. *)
Lemma upload_label_example :
  ∃ u : Upload,
    last (uploads (snd (post healthy w0 (upload_request alice "101" "104")))) = Some u
    ∧ file_name u
      = take 99 (Py.lit "c11: " ++ Py.lit "c11.xlsx" ++ Py.lit " - bw: "
                 ++ Py.lit "bw.xlsx")
    ∧ (length (file_name u) ≤ 99)%nat.
Proof.
  apply (upload_label_truncated healthy w0 (upload_request alice "101" "104")
           (file "c11.xlsx" "101") (file "bw.xlsx" "104")); compute_eq.
Defined.

(** C10 on a concrete upload. *)
Lemma stored_content_example :
  ∃ u : Upload,
    last (uploads (snd (post healthy w0 (upload_request alice "101" "104")))) = Some u
    ∧ file_content u
      = Py.lit "{" ++ Py.quoted "c11_data" ++ Py.lit ": "
        ++ Json.dumps (record_str "bw" <$> [104])
        ++ Py.lit ", " ++ Py.quoted "bw_data" ++ Py.lit ": "
        ++ Json.dumps (record_str "c11" <$> [101])
        ++ Py.lit "}"
    ∧ Json.loads (file_content u)
      = Some [(Py.lit "c11_data", record_str "bw" <$> [104]);
              (Py.lit "bw_data", record_str "c11" <$> [101])].
Proof.
  apply (stored_content_swaps_labels healthy w0 (upload_request alice "101" "104")
           (file "c11.xlsx" "101") (file "bw.xlsx" "104") [101] [] [104] []);
    compute_eq.
Defined.

(** C8 fails as stated. An unexpected exception while parsing: the attempt
    fails and the caller gets the two error lists, but the message is an
    error, not a warning. A bad row in an otherwise good upload: the caller
    gets the statistics page, with the row error, and no message at all. *)
Lemma failure_without_warning :
  (read_successful
     <$> last (uploads (snd (post healthy w0 (upload_request alice "crash" "104"))))
   = Some false
   ∧ fst (post healthy w0 (upload_request alice "crash" "104"))
     = Ok (render_form_errors (D := healthy) enabled_form [] [])
   ∧ ∀ t, (WARNING, t)
          ∉ messages (snd (post healthy w0 (upload_request alice "crash" "104"))))
  ∧ (fst (post healthy w0 (upload_request alice "101,x" "104"))
     = Ok (render_statistics (D := healthy) (Some 2%nat) [] [Py.lit "x"])
     ∧ messages (snd (post healthy w0 (upload_request alice "101,x" "104"))) = []).
Proof.
  split; [|split; compute_eq].
  split; [compute_eq|]. split; [compute_eq|].
  intros t Hin. vm_compute in Hin.
  inversion Hin as [|? ? ? Hin']; inversion Hin'.
Qed.

(** C8 as amended, for a corrupt BW file after a C11 file with one bad
    row: the form, the row error, and a warning. *)
Lemma output_example :
  let request := upload_request alice "101,x" "corrupt" in
  fst (post healthy w0 request)
  = Ok (render_form_errors (D := healthy) enabled_form [] [Py.lit "x"])
  ∧ messages (snd (post healthy w0 request))
    = messages (snd (check_upload_allow healthy w0 request))
      ++ [(WARNING, File_not_correctly_upload)].
Proof.
  apply (output_of_post healthy w0 (upload_request alice "101,x" "corrupt")
           (file "c11.xlsx" "101,x") (file "bw.xlsx" "corrupt")); compute_eq.
Defined.

(** C9 fails on the code. Mallory is in no permitted group: her POST is
    refused without a word, her GET is logged and answered with a warning. *)
Lemma post_denial_example :
  let request := upload_request mallory "101" "104" in
  (fst (post healthy w0 request) = Ok (render_form disabled_form)
   ∧ projects (snd (post healthy w0 request)) = projects w0
   ∧ uploads (snd (post healthy w0 request)) = uploads w0
   ∧ log (snd (post healthy w0 request)) = log w0
   ∧ messages (snd (post healthy w0 request)) = [])
  ∧ (log (snd (get healthy w0 request))
     = log w0 ++ [Error_not_allowed_to_see_upload_content mallory]
     ∧ messages (snd (get healthy w0 request))
       = [] ++ [(WARNING,
                 Exception_msg (Py.lit "User not allowed to perform this action"))]).
Proof.
  apply (post_denial_is_silent healthy w0 (upload_request mallory "101" "104"));
    compute_eq.
Defined.

End Examples.

(** * Further properties of the view *)

(** ** The cadence gate, in terms of instants *)

Section CadenceFacts.

Context (D : Collaborators).

Lemma days_remaining_pos_iff (t n now : Z) :
  0 < days_remaining t n now ↔ now - now mod DAY ≤ t + (n - 1) * DAY.
Proof.
  unfold days_remaining.
  pose proof (Z.div_mod (t + n * DAY - (now - now mod DAY)) DAY) as Hdm.
  pose proof (Z.mod_pos_bound (t + n * DAY - (now - now mod DAY)) DAY DAY_pos) as Hm.
  unfold DAY in *. lia.
Qed.

Lemma replace_midnight_bounds (now : Z) :
  replace_midnight now ≤ now < replace_midnight now + DAY.
Proof.
  unfold replace_midnight. pose proof (Z.mod_pos_bound now DAY DAY_pos). lia.
Qed.

Lemma last_upload_timestamp_ge (us : list Upload) (u : Upload) :
  u ∈ us → ∃ t, last_upload_timestamp us = Some t ∧ timestamp u ≤ t.
Proof.
  induction us as [|v us IH]; intros Hin; [inversion Hin|].
  apply elem_of_cons in Hin as [->|Hin]; simpl.
  - destruct (last_upload_timestamp us); eexists; split; eauto; lia.
  - destruct (IH Hin) as (t & -> & Ht). eexists; split; eauto. lia.
Qed.

End CadenceFacts.

(** X1. For an actor who is not staff, with the latest upload at [t] and a
    cooldown of [n] days, the gate lets an upload through exactly when
    today's midnight (UTC) lies after [t + (n - 1)] days: the gate re-opens at
    a midnight, not [n] times 24 hours after the upload. *)
Theorem cadence_reopens_at_midnight (D : Collaborators) (w : World)
    (request : Request) (t : Z) :
  is_staff (user request) = false →
  last_upload_timestamp (uploads w) = Some t →
  (fst (check_upload_allow D w request) = true
   ↔ t + (UPLOAD_ALLOWED_AFTER_DAYS D - 1) * DAY < replace_midnight (now w)).
Proof.
  intros Hstaff Hlast.
  rewrite check_upload_allow_eq, days_to_next_upload_spec, Hstaff, Hlast.
  pose proof (days_remaining_pos_iff t (UPLOAD_ALLOWED_AFTER_DAYS D) (now w)) as Hpos.
  unfold replace_midnight.
  destruct (Z.ltb_spec 0 (days_remaining t (UPLOAD_ALLOWED_AFTER_DAYS D) (now w)));
    simpl; split; try discriminate; try reflexivity; lia.
Qed.

(** X2. The wait the gate imposes on an actor who is not staff: an upload
    is refused for at least [n - 1] days after the latest one and let
    through from [n] days after it on; and when the latest upload is not in
    the future, the number of days announced is never more than [n]. *)
Theorem cadence_wait_bounds (D : Collaborators) (w : World) (request : Request)
    (t : Z) :
  is_staff (user request) = false →
  last_upload_timestamp (uploads w) = Some t →
  (now w ≤ t + (UPLOAD_ALLOWED_AFTER_DAYS D - 1) * DAY →
   fst (check_upload_allow D w request) = false)
  ∧ (t + UPLOAD_ALLOWED_AFTER_DAYS D * DAY ≤ now w →
     check_upload_allow D w request = (true, w))
  ∧ (t ≤ now w → days_to_next_upload D w request ≤ UPLOAD_ALLOWED_AFTER_DAYS D).
Proof.
  intros Hstaff Hlast.
  rewrite check_upload_allow_eq, days_to_next_upload_spec, Hstaff, Hlast.
  pose proof (days_remaining_pos_iff t (UPLOAD_ALLOWED_AFTER_DAYS D) (now w)) as Hpos.
  pose proof (replace_midnight_bounds (now w)) as Hmid.
  unfold replace_midnight in Hmid.
  split; [|split].
  - intros Hnow.
    destruct (Z.ltb_spec 0 (days_remaining t (UPLOAD_ALLOWED_AFTER_DAYS D) (now w)));
      [reflexivity|lia].
  - intros Hnow.
    destruct (Z.ltb_spec 0 (days_remaining t (UPLOAD_ALLOWED_AFTER_DAYS D) (now w)));
      [lia|reflexivity].
  - intros Hnow. unfold days_remaining.
    apply Z.lt_succ_r, Z.div_lt_upper_bound; [apply DAY_pos|]. lia.
Qed.

(** X3. Every upload row starts the cooldown, whatever became of the
    attempt: once a POST has reached the [try] block — even one whose files
    failed to parse — an actor who is not staff is refused for the next
    [n - 1] days. *)
Theorem any_upload_starts_cooldown (D : Collaborators) (w w2 : World)
    (request request2 : Request) :
  reaches_try D w request = true →
  uploads w2 = uploads (snd (post D w request)) →
  now w2 ≤ now w + (UPLOAD_ALLOWED_AFTER_DAYS D - 1) * DAY →
  is_staff (user request2) = false →
  fst (check_upload_allow D w2 request2) = false.
Proof.
  intros Hr Hup Hnow Hstaff.
  apply reaches_try_true in Hr as (Ha & Hv & [f1 H1] & [f2 H2]).
  rewrite (post_appends_upload D w request f1 f2 Ha Hv H1 H2) in Hup.
  match type of Hup with
  | _ = _ ++ [?u] =>
      destruct (last_upload_timestamp_ge (uploads w2) u) as (t & Hlast & Ht);
        [rewrite Hup; apply elem_of_app; right; left|]
  end.
  cbn [timestamp] in Ht.
  rewrite check_upload_allow_eq, days_to_next_upload_spec, Hstaff, Hlast.
  pose proof (days_remaining_pos_iff t (UPLOAD_ALLOWED_AFTER_DAYS D) (now w2)) as Hpos.
  pose proof (replace_midnight_bounds (now w2)) as Hmid.
  unfold replace_midnight in Hmid.
  destruct (Z.ltb_spec 0 (days_remaining t (UPLOAD_ALLOWED_AFTER_DAYS D) (now w2)));
    [reflexivity|lia].
Qed.

(** X4. In [post] the cadence gate binds everyone who is not staff, a
    superuser included: within the cooldown the POST is answered with the
    disabled form and the warning that tells the days left, and nothing else
    changes. *)
Theorem post_cadence_binds_superuser (D : Collaborators) (w : World)
    (request : Request) (t : Z) :
  is_staff (user request) = false →
  last_upload_timestamp (uploads w) = Some t →
  replace_midnight (now w) ≤ t + (UPLOAD_ALLOWED_AFTER_DAYS D - 1) * DAY →
  post D w request
  = (Ok (render_form disabled_form),
     add_message WARNING
       (Next_upload_possible_after
          (days_remaining t (UPLOAD_ALLOWED_AFTER_DAYS D) (now w))) w).
Proof.
  intros Hstaff Hlast Hmid.
  unfold post, post_allowed.
  rewrite check_upload_allow_eq, days_to_next_upload_spec, Hstaff, Hlast.
  pose proof (days_remaining_pos_iff t (UPLOAD_ALLOWED_AFTER_DAYS D) (now w)) as Hpos.
  unfold replace_midnight in Hmid.
  destruct (Z.ltb_spec 0 (days_remaining t (UPLOAD_ALLOWED_AFTER_DAYS D) (now w)));
    [reflexivity|lia].
Qed.

(** ** Reading the order numbers back *)

Section RowFacts.

Import Py.

Lemma slice_inner {A} (o c : A) (body : list A) :
  slice 1 (-1) (o :: body ++ [c]) = body.
Proof.
  unfold slice, slice_bound. rewrite length_cons, length_app. simpl length.
  replace (Z.of_nat (S (length body + 1)))
    with (Z.of_nat (length body) + 2) by lia.
  change (1 <? 0) with false. change (-1 <? 0) with true. cbv iota.
  rewrite Z.min_l, Z.max_r by lia.
  replace (Z.to_nat (-1 + (Z.of_nat (length body) + 2) - 1))
    with (length body) by lia.
  change (Z.to_nat 1) with 1%nat. simpl drop. apply take_app_length.
Qed.

Lemma slice_subseteq {A} (lo hi : Z) (s : list A) : slice lo hi s ⊆ s.
Proof.
  unfold slice. intros x Hx.
  eapply elem_of_sublist; [exact Hx|].
  etrans; [apply sublist_take|apply sublist_drop].
Qed.

Lemma split_no_sep (c : ascii) (s : str) : c ∉ s → split c s = [s].
Proof.
  induction s as [|x s IH]; intros Hc; [reflexivity|].
  apply not_elem_of_cons in Hc as [Hx Hc]. simpl.
  destruct (Ascii.eqb_spec x c) as [->|_]; [contradiction|].
  rewrite (IH Hc). reflexivity.
Qed.

Lemma split_app_sep (c : ascii) (a b : str) :
  c ∉ a → split c (a ++ c :: b) = a :: split c b.
Proof.
  induction a as [|x a IH]; intros Hc; simpl.
  - rewrite Ascii.eqb_refl. reflexivity.
  - apply not_elem_of_cons in Hc as [Hx Hc].
    destruct (Ascii.eqb_spec x c) as [->|_]; [contradiction|].
    rewrite (IH Hc). reflexivity.
Qed.

(** The first piece of a split: it is there, and its characters are
    characters of the string. *)
Lemma split_head (c : ascii) (s : str) :
  ∃ h t, split c s = h :: t ∧ h ⊆ s.
Proof.
  induction s as [|x s (h & t & IH & Hsub)]; simpl.
  - exists [], []. split; [reflexivity|]. intros y Hy. exact Hy.
  - destruct (Ascii.eqb x c).
    + exists [], (split c s). split; [reflexivity|]. intros y Hy. inversion Hy.
    + rewrite IH. exists (x :: h), t. split; [reflexivity|].
      intros y [->|Hy]%elem_of_cons; [left|right; auto].
Qed.

(** What a row can raise while its order number is read. *)
Lemma row_order_number_raises (row : str) (e : exn) :
  row_order_number row = Raise e →
  e = IndexError (lit "list index out of range") ∨ ∃ field, e = ValueError field.
Proof.
  unfold row_order_number, result_bind, index.
  destruct (split "," (slice 1 (-1) row) !! 0%nat) as [cell|];
    [|intros [= <-]; auto].
  destruct (split ":" cell !! 1%nat) as [field|]; [|intros [= <-]; auto].
  destruct (int field); [discriminate|]. intros [= <-]. eauto.
Qed.

Lemma rows_order_numbers_Ok (rows : list str) (acc nums : list Z) :
  rows_order_numbers rows acc = Ok nums →
  ∃ ns, nums = acc ++ ns
        ∧ Forall2 (λ row n, row_order_number row = Ok n) rows ns.
Proof.
  revert acc. induction rows as [|row rows IH]; intros acc; simpl.
  - intros [= <-]. exists []. rewrite app_nil_r. split; [reflexivity|constructor].
  - destruct (row_order_number row) as [n|e] eqn:Hrow; [|discriminate]. simpl.
    intros (ns & -> & Hall)%IH. exists (n :: ns).
    rewrite <- app_assoc. split; [reflexivity|]. constructor; assumption.
Qed.

Lemma rows_order_numbers_Raise (rows : list str) (acc : list Z) (e : exn) :
  rows_order_numbers rows acc = Raise e →
  ∃ row, row ∈ rows ∧ row_order_number row = Raise e.
Proof.
  revert acc. induction rows as [|row rows IH]; intros acc; simpl; [discriminate|].
  destruct (row_order_number row) as [n|e'] eqn:Hrow; simpl.
  - intros (r & Hr & He)%IH. exists r. split; [right|]; assumption.
  - intros [= ->]. exists row. split; [left|assumption].
Qed.

Lemma Forall2_order_numbers_elem (rows : list str) (ns : list Z) (n : Z) :
  Forall2 (λ row k, row_order_number row = Ok k) rows ns →
  n ∈ ns ↔ ∃ row, row ∈ rows ∧ row_order_number row = Ok n.
Proof.
  induction 1 as [|row k rows ns Hrow Hall IH].
  - split; [intros Hin; inversion Hin|intros (r & Hin & _); inversion Hin].
  - rewrite elem_of_cons, IH. split.
    + intros [->|(r & Hin & Hr)]; [exists row|exists r];
        (split; [|assumption]); [left|right; assumption].
    + intros (r & [->|Hin]%elem_of_cons & Hr).
      * left. congruence.
      * right. eauto.
Qed.

End RowFacts.

Section DerivationFacts.

Context (D : Collaborators).

(** The rows the order numbers are read from: the strings of the BW
    records, then those of the C11 records. *)
Lemma uploaded_order_numbers_rows (c11_data : list (C11Record D))
    (bw_data : list (BWRecord D)) :
  uploaded_order_numbers (serialize D c11_data bw_data)
  = rows_order_numbers ((bw_str D <$> bw_data) ++ (c11_str D <$> c11_data)) [].
Proof.
  rewrite uploaded_order_numbers_serialize. cbn [values_order_numbers].
  generalize (@nil Z). generalize (c11_str D <$> c11_data).
  induction (bw_str D <$> bw_data) as [|row rows IH]; intros rest acc.
  - simpl. destruct (rows_order_numbers rest acc); reflexivity.
  - simpl. destruct (row_order_number row); simpl; [apply IH|reflexivity].
Qed.

End DerivationFacts.

(** ** Integer literals and decimal numerals *)

Section IntFacts.

Import Py.

Lemma digit_value_char (c : ascii) (d : Z) :
  digit_value c = Some d →
  is_space c = false ∧ Ascii.eqb c "-" = false ∧ Ascii.eqb c "+" = false
  ∧ c ≠ ","%char ∧ c ≠ ":"%char.
Proof.
  destruct c as [[] [] [] [] [] [] [] []]; cbv; intros H; try discriminate H;
    repeat split; try reflexivity; intros E; discriminate E.
Qed.

Lemma is_space_char (c : ascii) :
  is_space c = true → c ≠ ","%char ∧ c ≠ ":"%char.
Proof.
  destruct c as [[] [] [] [] [] [] [] []]; cbv; intros H; try discriminate H;
    split; intros E; discriminate E.
Qed.

Lemma pretty_N_char_digit (d : N) :
  (d < 10)%N → digit_value (pretty_N_char d) = Some (Z.of_N d).
Proof.
  intros Hd.
  assert (d = 0 ∨ d = 1 ∨ d = 2 ∨ d = 3 ∨ d = 4 ∨ d = 5 ∨ d = 6 ∨ d = 7
          ∨ d = 8 ∨ d = 9)%N as Hcases by lia.
  repeat (destruct Hcases as [->|Hcases]; [reflexivity|]). subst. reflexivity.
Qed.

(** Reading the numeral of [x] in front of [s] multiplies what was read so
    far by a power of ten and adds [x]. *)
Lemma int_digits_pretty_N_go (x : N) (s : string) :
  ∃ m, ∀ acc b, (0 < x)%N →
    int_digits b acc (lit (pretty_N_go x s))
    = int_digits true (acc * m + Z.of_N x) (lit s).
Proof.
  revert s. induction (N.lt_wf_0 x) as [x _ IH]. intros s.
  destruct (decide (0 < x)%N) as [Hx|Hx]; [|exists 1; intros; lia].
  assert (x `mod` 10 < 10)%N as Hmod by (apply N.mod_lt; lia).
  pose proof (N.div_mod x 10 ltac:(lia)) as Hdm.
  rewrite pretty_N_go_step by exact Hx.
  destruct (decide (0 < x `div` 10)%N) as [Hq|Hq].
  - destruct (IH (x `div` 10)%N (N.div_lt x 10 Hx eq_refl)
                (String (pretty_N_char (x `mod` 10)) s)) as [m Hm].
    exists (10 * m). intros acc b _. rewrite (Hm acc b Hq).
    change (lit (String ?c ?t)) with (c :: lit t). cbn [int_digits].
    rewrite (pretty_N_char_digit _ Hmod). f_equal. lia.
  - replace (x `div` 10)%N with 0%N by lia. rewrite pretty_N_go_0.
    exists 10. intros acc b _.
    change (lit (String ?c ?t)) with (c :: lit t). cbn [int_digits].
    rewrite (pretty_N_char_digit _ Hmod). f_equal. lia.
Qed.

Lemma pretty_N_go_chars (P : ascii → Prop) (x : N) (s : string) :
  (∀ d, (d < 10)%N → P (pretty_N_char d)) →
  Forall P (lit s) → Forall P (lit (pretty_N_go x s)).
Proof.
  intros HP. revert s. induction (N.lt_wf_0 x) as [x _ IH]. intros s Hs.
  destruct (decide (0 < x)%N) as [Hx|Hx].
  - rewrite pretty_N_go_step by exact Hx.
    apply IH; [apply N.div_lt; [exact Hx|reflexivity]|].
    change (lit (String ?c ?t)) with (c :: lit t).
    constructor; [apply HP, N.mod_lt; lia|exact Hs].
  - replace x with 0%N by lia. rewrite pretty_N_go_0. exact Hs.
Qed.

Lemma lstrip_no_space (s : str) :
  Forall (λ c, is_space c = false) s → lstrip s = s.
Proof. destruct 1 as [|c s Hc _]; [reflexivity|]. simpl. rewrite Hc. reflexivity. Qed.

Lemma lstrip_blanks (a s : str) :
  Forall (λ c, is_space c = true) a → lstrip (a ++ s) = lstrip s.
Proof. induction 1 as [|c a Hc _ IH]; [reflexivity|]. simpl. rewrite Hc. exact IH. Qed.

Lemma lstrip_all_blanks (b : str) :
  Forall (λ c, is_space c = true) b → lstrip b = [].
Proof. induction 1 as [|c b Hc _ IH]; [reflexivity|]. simpl. rewrite Hc. exact IH. Qed.

(** [strip] takes the blanks off both ends of a text without blanks. *)
Lemma strip_blanks (a b s : str) :
  Forall (λ c, is_space c = true) a → Forall (λ c, is_space c = true) b →
  Forall (λ c, is_space c = false) s →
  strip (a ++ s ++ b) = s.
Proof.
  intros Ha Hb Hs. unfold strip. rewrite (lstrip_blanks a _ Ha).
  destruct Hs as [|c s Hc Hs].
  - simpl. rewrite (lstrip_all_blanks b Hb). reflexivity.
  - assert (lstrip ((c :: s) ++ b) = (c :: s) ++ b) as ->
      by (simpl; rewrite Hc; reflexivity).
    rewrite reverse_app, lstrip_blanks by (apply Forall_reverse; exact Hb).
    rewrite lstrip_no_space, reverse_involutive; [reflexivity|].
    apply Forall_reverse. constructor; assumption.
Qed.

(** [int] reads the decimal numeral of [n], blanks around it or not, as
    [n]. *)
Lemma int_decimal (a b : str) (n : Z) :
  Forall (λ c, is_space c = true) a → Forall (λ c, is_space c = true) b →
  int (a ++ decimal n ++ b) = Some n.
Proof.
  intros Ha Hb.
  assert (∀ x, (0 < x)%N →
            ∃ c r d, lit (pretty_N_go x "") = c :: r
                     ∧ digit_value c = Some d
                     ∧ Forall (λ c, is_space c = false) (c :: r)
                     ∧ int_digits false 0 (c :: r) = Some (Z.of_N x)) as Hnum.
  { intros x Hx.
    destruct (int_digits_pretty_N_go x "") as [m Hm].
    pose proof (pretty_N_go_chars (λ c, ∃ d, digit_value c = Some d) x ""
                  (λ d Hd, ex_intro _ _ (pretty_N_char_digit d Hd))
                  (Forall_nil_2 _)) as Hall.
    specialize (Hm 0 false Hx). simpl in Hm.
    destruct (lit (pretty_N_go x "")) as [|c r]; [discriminate|].
    pose proof (Forall_inv Hall) as [d Hd].
    exists c, r, d. repeat split; [exact Hd| |exact Hm].
    eapply Forall_impl; [exact Hall|]. intros ch [d' Hd'].
    apply (digit_value_char ch d' Hd'). }
  unfold int, decimal. destruct n as [|p|p].
  - rewrite strip_blanks by first [assumption | repeat constructor]. reflexivity.
  - unfold pretty, pretty_Z, pretty_positive, pretty, pretty_N.
    destruct (decide (N.pos p = 0%N)) as [|_]; [discriminate|].
    destruct (Hnum (N.pos p) eq_refl) as (c & r & d & -> & Hd & Hns & Hint).
    rewrite strip_blanks by assumption.
    destruct (digit_value_char c d Hd) as (_ & -> & -> & _). exact Hint.
  - unfold pretty, pretty_Z, pretty_positive, pretty, pretty_N.
    destruct (decide (N.pos p = 0%N)) as [|_]; [discriminate|].
    destruct (Hnum (N.pos p) eq_refl) as (c & r & d & Heq & Hd & Hns & Hint).
    change (lit ("-" +:+ ?t)) with ("-"%char :: lit t). rewrite Heq.
    rewrite strip_blanks
      by first [assumption | constructor; [reflexivity|exact Hns]].
    cbn [Ascii.eqb Bool.eqb]. rewrite Hint. reflexivity.
Qed.

(** A decimal numeral holds neither a comma nor a colon. *)
Lemma decimal_chars (n : Z) :
  (","%char ∉ decimal n) ∧ (":"%char ∉ decimal n).
Proof.
  assert (Forall (λ c, c ≠ ","%char ∧ c ≠ ":"%char) (decimal n)) as Hall.
  { assert (∀ x, Forall (λ c, c ≠ ","%char ∧ c ≠ ":"%char)
                   (lit (pretty_N_go x ""))) as Hnum.
    { intros x. apply pretty_N_go_chars; [|constructor].
      intros d Hd. eapply digit_value_char, pretty_N_char_digit, Hd. }
    unfold decimal. destruct n as [|p|p].
    - repeat constructor; discriminate.
    - unfold pretty, pretty_Z, pretty_positive, pretty, pretty_N.
      destruct (decide (N.pos p = 0%N)); [discriminate|]. apply Hnum.
    - unfold pretty, pretty_Z, pretty_positive, pretty, pretty_N.
      destruct (decide (N.pos p = 0%N)); [discriminate|].
      change (lit ("-" +:+ ?t)) with ("-"%char :: lit t).
      constructor; [split; discriminate|apply Hnum]. }
  rewrite Forall_forall in Hall.
  split; intros Hin; destruct (Hall _ Hin) as [? ?]; congruence.
Qed.

End IntFacts.

(** ** Reconciliation against the order numbers of the uploaded records *)

Section UploadedNumbers.

Import Py.

(** The view reads from a row that carries an order number in its first
    field that order number. *)
Lemma row_order_number_printed (row : str) (n : Z) :
  prints_order_number row n → row_order_number row = Ok n.
Proof.
  intros (o & c & key & field & tail & -> & Hk1 & Hk2 & Hf1 & Hf2 & Htail & Hint).
  unfold row_order_number. rewrite slice_inner.
  assert (split "," (key ++ ":"%char :: field ++ tail)
          = (key ++ ":"%char :: field)
              :: match tail with [] => [] | _ :: rest => split "," rest end) as ->.
  { assert (","%char ∉ key ++ ":"%char :: field) as Hcell.
    { rewrite elem_of_app, elem_of_cons. intros [?|[?|?]]; [auto|discriminate|auto]. }
    destruct Htail as [->|[rest ->]].
    - rewrite app_nil_r. apply split_no_sep, Hcell.
    - replace (key ++ ":"%char :: field ++ ","%char :: rest)
        with ((key ++ ":"%char :: field) ++ ","%char :: rest)
        by (rewrite <- app_assoc; reflexivity).
      apply split_app_sep, Hcell. }
  cbn [index lookup list_lookup result_bind].
  rewrite (split_app_sep ":" key field Hk2), (split_no_sep ":" field Hf2).
  cbn [index lookup list_lookup result_bind]. rewrite Hint. reflexivity.
Qed.

(** A row with the decimal numeral of [n] after the colon of its first
    field, blanks before it or not, carries the order number [n]. *)
Lemma prints_order_number_decimal (o c : ascii) (key blanks tail : str) (n : Z) :
  ","%char ∉ key → ":"%char ∉ key →
  Forall (λ ch, is_space ch = true) blanks →
  tail = [] ∨ (∃ rest, tail = ","%char :: rest) →
  prints_order_number
    (o :: (key ++ ":"%char :: (blanks ++ decimal n) ++ tail) ++ [c]) n.
Proof.
  intros Hk1 Hk2 Hblanks Htail.
  exists o, c, key, (blanks ++ decimal n), tail.
  destruct (decimal_chars n) as [Hd1 Hd2].
  assert (∀ ch, ch ∈ blanks → ch ≠ ","%char ∧ ch ≠ ":"%char) as Hb.
  { intros ch Hch. apply is_space_char.
    rewrite Forall_forall in Hblanks. auto. }
  repeat split; try assumption.
  - rewrite elem_of_app. intros [Hin|Hin]; [|auto].
    destruct (Hb _ Hin) as [? _]. congruence.
  - rewrite elem_of_app. intros [Hin|Hin]; [|auto].
    destruct (Hb _ Hin) as [_ ?]. congruence.
  - rewrite <- (app_nil_r (blanks ++ decimal n)), <- app_assoc.
    apply int_decimal; [exact Hblanks|constructor].
Qed.

Lemma rows_order_numbers_printed {A} (f : A → str) (g : A → Z) (l : list A)
    (acc : list Z) :
  Forall (λ x, prints_order_number (f x) (g x)) l →
  rows_order_numbers (f <$> l) acc = Ok (acc ++ (g <$> l)).
Proof.
  intros Hall. revert acc.
  induction Hall as [|x l Hx _ IH]; intros acc; simpl.
  - rewrite app_nil_r. reflexivity.
  - rewrite (row_order_number_printed _ _ Hx). simpl.
    rewrite IH, <- app_assoc. reflexivity.
Qed.

Lemma rows_order_numbers_app (l1 l2 : list str) (acc : list Z) :
  rows_order_numbers (l1 ++ l2) acc
  = result_bind (rows_order_numbers l1 acc) (rows_order_numbers l2).
Proof.
  revert acc. induction l1 as [|row l1 IH]; intros acc; simpl; [reflexivity|].
  destruct (row_order_number row); simpl; [apply IH|reflexivity].
Qed.

End UploadedNumbers.

(** C1. After an attempt that runs to completion — both files parse, the
    merge succeeds and no deletion is refused — the projects deleted from
    the table are exactly the stale set: every stored project whose order
    number is not the order number of a record uploaded in the C11 or the BW
    file is gone, and every project whose order number is among them is
    still there. The record classes are outside the sources; their
    [__str__] is taken to print the order number in the first field, which
    is where the view reads it. *)
Theorem reconciliation_deletes_exactly_stale (D : Collaborators)
    (c11_order_number : C11Record D → Z) (bw_order_number : BWRecord D → Z)
    (w : World) (request : Request) (c11_file bw_file : UploadedFile)
    (c11_data : list (C11Record D)) (c11_err : list (C11Error D))
    (bw_data : list (BWRecord D)) (bw_err : list (BWError D))
    (stats : Statistics D) (mid : list Project) :
  fst (post_allowed D w request) = true →
  form_is_valid D request = true →
  FILES_c11_file request = Some c11_file →
  FILES_bw_file request = Some bw_file →
  parse_c11_file D c11_file = Ok (c11_data, c11_err) →
  parse_bw_file D bw_file = Ok (bw_data, bw_err) →
  build_objects D c11_data bw_data (projects w) = (Ok stats, mid) →
  Forall (λ x, prints_order_number (c11_str D x) (c11_order_number x)) c11_data →
  Forall (λ y, prints_order_number (bw_str D y) (bw_order_number y)) bw_data →
  let uploaded := (bw_order_number <$> bw_data)
                  ++ (c11_order_number <$> c11_data) in
  first_fault D (stale uploaded mid) = None →
  NoDup (pk <$> mid) →
  let after := projects (snd (post D w request)) in
  deleted mid after = stale uploaded mid
  ∧ after = filter (λ p, order_number p ∈ uploaded) mid
  ∧ ∀ p, p ∈ mid → (p ∈ after ↔ order_number p ∈ uploaded).
Proof.
  intros Ha Hv H1 H2 Hc11 Hbw Hbuild Hc11_str Hbw_str uploaded Hfault Hnd.
  apply (deleted_is_stale_of_read_numbers D w request c11_file bw_file
           c11_data c11_err bw_data bw_err stats mid uploaded);
    try assumption.
  rewrite uploaded_order_numbers_rows, rows_order_numbers_app.
  rewrite (rows_order_numbers_printed (bw_str D) bw_order_number bw_data []
             Hbw_str).
  cbn [result_bind app].
  apply (rows_order_numbers_printed (c11_str D) c11_order_number c11_data _
           Hc11_str).
Qed.

(** X5. Shape of a row whose order number can be read: after the opening
    character comes a field name, a colon, the number, and then the closing
    character or a comma and anything else. If neither the name nor the
    number contains a comma or a colon, what is read is [int] of the text
    between the colon and the comma — surrounding blanks allowed — and a
    text that is no integer raises [ValueError]. *)
Theorem row_order_number_first_field (o c : ascii) (key field tail : Py.str) :
  ","%char ∉ key → ":"%char ∉ key →
  ","%char ∉ field → ":"%char ∉ field →
  tail = [] ∨ (∃ rest, tail = ","%char :: rest) →
  row_order_number (o :: (key ++ ":"%char :: field ++ tail) ++ [c])
  = match Py.int field with
    | Some n => Ok n
    | None => Raise (ValueError field)
    end.
Proof.
  intros Hk1 Hk2 Hf1 Hf2 Htail. unfold row_order_number.
  rewrite slice_inner.
  assert (Py.split "," (key ++ ":"%char :: field ++ tail) !! 0%nat
          = Some (key ++ ":"%char :: field)) as Hcell.
  { destruct Htail as [->|[rest ->]].
    - rewrite app_nil_r, split_no_sep; [reflexivity|].
      rewrite elem_of_app, elem_of_cons. intros [?|[?|?]]; [auto|discriminate|auto].
    - replace (key ++ ":"%char :: field ++ ","%char :: rest)
        with ((key ++ ":"%char :: field) ++ ","%char :: rest)
        by (rewrite <- app_assoc; reflexivity).
      rewrite split_app_sep; [reflexivity|].
      rewrite elem_of_app, elem_of_cons. intros [?|[?|?]]; [auto|discriminate|auto]. }
  unfold index at 1. rewrite Hcell. cbn [result_bind].
  rewrite (split_app_sep ":" key field Hk2), (split_no_sep ":" field Hf2).
  reflexivity.
Qed.

(** X6. A row without a colon — a record printed without field names —
    cannot be read: [IndexError], whatever else the row holds. *)
Theorem row_order_number_no_colon (row : Py.str) :
  ":"%char ∉ row →
  row_order_number row = Raise (IndexError (Py.lit "list index out of range")).
Proof.
  intros Hrow. unfold row_order_number.
  destruct (split_head "," (Py.slice 1 (-1) row)) as (cell & t & Hsplit & Hsub).
  rewrite Hsplit. cbn [index lookup list_lookup result_bind].
  rewrite split_no_sep; [reflexivity|].
  intros Hin. apply Hrow. eapply slice_subseteq, Hsub, Hin.
Qed.

(** ** Reconciliation, seen from the uploaded rows *)

(** X7. After a reconciliation that runs to completion, a project of the
    table the merge left is still stored exactly when some uploaded row —
    of the C11 file or of the BW file — reads back to its order number. *)
Theorem survivors_have_an_uploaded_row (D : Collaborators) (w : World)
    (request : Request) (c11_file bw_file : UploadedFile)
    (c11_data : list (C11Record D)) (c11_err : list (C11Error D))
    (bw_data : list (BWRecord D)) (bw_err : list (BWError D))
    (stats : Statistics D) (mid : list Project) (nums : list Z) :
  fst (post_allowed D w request) = true →
  form_is_valid D request = true →
  FILES_c11_file request = Some c11_file →
  FILES_bw_file request = Some bw_file →
  parse_c11_file D c11_file = Ok (c11_data, c11_err) →
  parse_bw_file D bw_file = Ok (bw_data, bw_err) →
  build_objects D c11_data bw_data (projects w) = (Ok stats, mid) →
  uploaded_order_numbers (serialize D c11_data bw_data) = Ok nums →
  first_fault D (stale nums mid) = None →
  NoDup (pk <$> mid) →
  ∀ p, p ∈ mid →
    (p ∈ projects (snd (post D w request))
     ↔ ∃ row, row ∈ (bw_str D <$> bw_data) ++ (c11_str D <$> c11_data)
              ∧ row_order_number row = Ok (order_number p)).
Proof.
  intros Ha Hv H1 H2 Hc11 Hbw Hbuild Hnums Hfault Hnd p Hp.
  destruct (post_projects_after D w request c11_file bw_file c11_data c11_err
              bw_data bw_err stats mid nums Ha Hv H1 H2 Hc11 Hbw Hbuild Hnums Hnd)
    as [-> _].
  rewrite (first_fault_None_prefix D _ Hfault).
  rewrite uploaded_order_numbers_rows in Hnums.
  apply rows_order_numbers_Ok in Hnums as (ns & -> & Hall).
  rewrite <- (Forall2_order_numbers_elem _ _ _ Hall).
  rewrite list_elem_of_filter. unfold stale. rewrite list_elem_of_filter.
  simpl. split.
  - intros [Hn _]. destruct (decide (order_number p ∈ ns)); [assumption|].
    exfalso. apply Hn. auto.
  - intros Hin. split; [|exact Hp]. intros [Hn _]. contradiction.
Qed.

Lemma filter_none {A} (P : A → Prop) `{!∀ x, Decision (P x)} (l : list A) :
  (∀ x, x ∈ l → ¬ P x) → filter P l = [].
Proof.
  induction l as [|x l IH]; intros Hl; [reflexivity|].
  rewrite filter_cons_False by (apply Hl; left).
  apply IH. intros y Hy. apply Hl. right. exact Hy.
Qed.

(** X8. An upload without a single record empties the table: when both
    files parse to no records at all, every project the merge left is
    deleted (provided no deletion is refused). *)
Theorem empty_upload_deletes_every_project (D : Collaborators) (w : World)
    (request : Request) (c11_file bw_file : UploadedFile)
    (c11_err : list (C11Error D)) (bw_err : list (BWError D))
    (stats : Statistics D) (mid : list Project) :
  fst (post_allowed D w request) = true →
  form_is_valid D request = true →
  FILES_c11_file request = Some c11_file →
  FILES_bw_file request = Some bw_file →
  parse_c11_file D c11_file = Ok ([], c11_err) →
  parse_bw_file D bw_file = Ok ([], bw_err) →
  build_objects D [] [] (projects w) = (Ok stats, mid) →
  first_fault D mid = None →
  projects (snd (post D w request)) = []
  ∧ fst (post D w request) = Ok (render_statistics (Some stats) bw_err c11_err).
Proof.
  intros Ha Hv H1 H2 Hc11 Hbw Hbuild Hfault.
  destruct (check_upload_allow_frame D w request) as (Hp & _).
  rewrite <- Hp in Hbuild.
  rewrite (post_admitted D w request c11_file bw_file Ha Hv H1 H2). cbv zeta.
  rewrite (post_try_read_ok D request _ _ _ _ _ _ _ _ _ Hc11 Hbw Hbuild).
  cbv zeta. rewrite uploaded_order_numbers_rows.
  cbn [fmap list_fmap app rows_order_numbers].
  assert (exclude_order_number_in [] mid = mid) as ->.
  { unfold exclude_order_number_in. apply filter_all.
    intros p Hin. inversion Hin. }
  rewrite for_each_delete, Hfault, (first_fault_None_prefix D _ Hfault).
  cbn [fst snd]. split; [|reflexivity].
  match goal with
  | |- projects (snd (post_finish D request c11_file bw_file ?r ?s)) = _ =>
      destruct (post_finish_world D request c11_file bw_file r s) as (-> & _)
  end.
  simpl. apply filter_none. intros q Hq Hn. apply Hn.
  apply list_elem_of_fmap. eauto.
Qed.

(** X9. When the order numbers cannot be read back — some row has no
    colon, or no integer after it — the stale projects are never looked
    up: the table stays as the merge left it, the exception ([IndexError] or
    [ValueError]) is logged and shown as an error-level message, and the
    statistics page is rendered all the same. *)
Theorem unreadable_order_numbers_delete_nothing (D : Collaborators) (w : World)
    (request : Request) (c11_file bw_file : UploadedFile)
    (c11_data : list (C11Record D)) (c11_err : list (C11Error D))
    (bw_data : list (BWRecord D)) (bw_err : list (BWError D))
    (stats : Statistics D) (mid : list Project) (e : exn) :
  fst (post_allowed D w request) = true →
  form_is_valid D request = true →
  FILES_c11_file request = Some c11_file →
  FILES_bw_file request = Some bw_file →
  parse_c11_file D c11_file = Ok (c11_data, c11_err) →
  parse_bw_file D bw_file = Ok (bw_data, bw_err) →
  build_objects D c11_data bw_data (projects w) = (Ok stats, mid) →
  uploaded_order_numbers (serialize D c11_data bw_data) = Raise e →
  (e = IndexError (Py.lit "list index out of range") ∨ ∃ field, e = ValueError field)
  ∧ projects (snd (post D w request)) = mid
  ∧ messages (snd (post D w request))
    = messages (snd (check_upload_allow D w request))
      ++ [(ERROR, Error_while_uploading_files e)]
  ∧ log (snd (post D w request)) = log w ++ [Error_files_upload e (user request)]
  ∧ fst (post D w request) = Ok (render_statistics (Some stats) bw_err c11_err).
Proof.
  intros Ha Hv H1 H2 Hc11 Hbw Hbuild Hnums.
  assert (e = IndexError (Py.lit "list index out of range")
          ∨ ∃ field, e = ValueError field) as He.
  { rewrite uploaded_order_numbers_rows in Hnums.
    apply rows_order_numbers_Raise in Hnums as (row & _ & Hrow).
    eapply row_order_number_raises, Hrow. }
  split; [exact He|].
  destruct (check_upload_allow_frame D w request) as (Hp & _ & Hl & _).
  rewrite <- Hp in Hbuild.
  rewrite (post_admitted D w request c11_file bw_file Ha Hv H1 H2). cbv zeta.
  rewrite (post_try_read_ok D request _ _ _ _ _ _ _ _ _ Hc11 Hbw Hbuild).
  cbv zeta. rewrite Hnums. cbn [fst snd].
  match goal with
  | |- context [post_finish D request c11_file bw_file ?r ?s] =>
      destruct (post_finish_world D request c11_file bw_file r s)
        as (-> & _ & -> & ->)
  end.
  cbn [world parsed_frame]. rewrite <- Hl.
  destruct He as [->|[field ->]]; repeat split; reflexivity.
Qed.

(** X10. An exception outside [Exception] raised by a deletion is caught by
    no handler: it reaches the caller — after the upload row has been
    written, flagged as read successfully, and without any message. *)
Theorem interrupted_deletion_propagates (D : Collaborators) (w : World)
    (request : Request) (c11_file bw_file : UploadedFile)
    (c11_data : list (C11Record D)) (c11_err : list (C11Error D))
    (bw_data : list (BWRecord D)) (bw_err : list (BWError D))
    (stats : Statistics D) (mid : list Project) (nums : list Z) (e : exn) :
  fst (post_allowed D w request) = true →
  form_is_valid D request = true →
  FILES_c11_file request = Some c11_file →
  FILES_bw_file request = Some bw_file →
  parse_c11_file D c11_file = Ok (c11_data, c11_err) →
  parse_bw_file D bw_file = Ok (bw_data, bw_err) →
  build_objects D c11_data bw_data (projects w) = (Ok stats, mid) →
  uploaded_order_numbers (serialize D c11_data bw_data) = Ok nums →
  first_fault D (stale nums mid) = Some e →
  is_Exception e = false →
  fst (post D w request) = Raise e
  ∧ read_successful <$> last (uploads (snd (post D w request))) = Some true
  ∧ length (uploads (snd (post D w request))) = S (length (uploads w))
  ∧ messages (snd (post D w request))
    = messages (snd (check_upload_allow D w request)).
Proof.
  intros Ha Hv H1 H2 Hc11 Hbw Hbuild Hnums Hfault Hexc.
  destruct (check_upload_allow_frame D w request) as (Hp & _).
  rewrite <- Hp in Hbuild.
  rewrite (post_appends_upload D w request c11_file bw_file Ha Hv H1 H2).
  rewrite (post_admitted D w request c11_file bw_file Ha Hv H1 H2). cbv zeta.
  rewrite (post_try_read_ok D request _ _ _ _ _ _ _ _ _ Hc11 Hbw Hbuild).
  cbv zeta. rewrite Hnums, for_each_delete. unfold exclude_order_number_in.
  fold (stale nums mid). rewrite Hfault. cbn [fst snd].
  split; [|split; [|split]].
  - unfold post_finish. cbn [locals world on_world parsed_frame upload_successful].
    rewrite Hexc. reflexivity.
  - rewrite last_snoc. reflexivity.
  - rewrite length_app. simpl. lia.
  - match goal with
    | |- context [post_finish D request c11_file bw_file ?r ?s] =>
        destruct (post_finish_world D request c11_file bw_file r s)
          as (_ & _ & -> & _)
    end.
    rewrite Hexc, app_nil_r. reflexivity.
Qed.

(** X11. What [post] lets through to its caller: an exception raised inside
    the [try] block reaches the caller only if it is outside [Exception] and
    was raised after the success flag was set; the only other exception is
    the key error for a file missing from a form that validated. *)
Theorem post_raises_only (D : Collaborators) (w : World) (request : Request)
    (e : exn) :
  fst (post D w request) = Raise e →
  (reaches_try D w request = true ∧ is_Exception e = false
   ∧ read_successful <$> last (uploads (snd (post D w request))) = Some true)
  ∨ (reaches_try D w request = false ∧ form_is_valid D request = true
     ∧ ∃ key, e = MultiValueDictKeyError key).
Proof.
  intros Hraise.
  destruct (reaches_try D w request) eqn:Hr.
  - left. split; [reflexivity|].
    apply reaches_try_true in Hr as (Ha & Hv & [f1 H1] & [f2 H2]).
    rewrite (post_appends_upload D w request f1 f2 Ha Hv H1 H2), last_snoc.
    rewrite (post_admitted D w request f1 f2 Ha Hv H1 H2) in Hraise.
    cbv zeta in Hraise. unfold post_finish in Hraise.
    cbn [fmap option_fmap option_map read_successful].
    destruct (upload_successful D _); [|discriminate]. simpl in Hraise.
    destruct (fst (post_try D request f1 f2 _)) as [[]|e']; [discriminate|].
    destruct (is_Exception e') eqn:He'; [discriminate|].
    injection Hraise as <-. auto.
  - right. split; [reflexivity|].
    unfold post in Hraise. destruct (post_allowed D w request) as [allowed w1] eqn:Hpa.
    destruct allowed; [|discriminate]. simpl in Hraise.
    destruct (form_is_valid D request) eqn:Hv; [|discriminate].
    split; [reflexivity|].
    destruct (FILES_c11_file request) as [f1|] eqn:H1; simpl in Hraise;
      [|injection Hraise as <-; eauto].
    destruct (FILES_bw_file request) as [f2|] eqn:H2; simpl in Hraise;
      [|injection Hraise as <-; eauto].
    exfalso. unfold reaches_try in Hr. rewrite Hpa, Hv, H1, H2 in Hr.
    simpl in Hr. discriminate.
Qed.

(** ** The GET handler *)

Section GetFacts.

Context (D : Collaborators).

Lemma insert_by_timestamp_perm (u : Upload) (l : list Upload) :
  insert_by_timestamp u l ≡ₚ u :: l.
Proof.
  induction l as [|v l IH]; [reflexivity|]. simpl.
  destruct (timestamp v <=? timestamp u); [reflexivity|].
  rewrite IH. apply Permutation_swap.
Qed.

Lemma insert_by_timestamp_sorted (u : Upload) (l : list Upload) :
  StronglySorted (λ a b, timestamp b ≤ timestamp a) l →
  StronglySorted (λ a b, timestamp b ≤ timestamp a) (insert_by_timestamp u l).
Proof.
  induction 1 as [|v l Hsorted IH Hall]; simpl.
  - repeat constructor.
  - destruct (Z.leb_spec (timestamp v) (timestamp u)) as [Hle|Hlt].
    + constructor; [constructor; assumption|].
      constructor; [exact Hle|].
      eapply Forall_impl; [exact Hall|]. simpl. intros x Hx. lia.
    + constructor; [exact IH|].
      rewrite insert_by_timestamp_perm. constructor; [lia|exact Hall].
Qed.

(** The pieces of a GET by an actor who is not a superuser. *)
Lemma get_not_superuser (w : World) (request : Request) :
  is_superuser (user request) = false →
  let allowed := fst (check_upload_allow D w request) in
  let w1 := snd (check_upload_allow D w request) in
  let w2 := if allowed then w1 else set_class_form disabled_form w1 in
  get D w request
  = if is_user_in_groups D (user request) upload_groups
    then (Ok (render_form_uploads (class_form w2)
                (order_by_timestamp_desc (uploads w2))), w2)
    else
      let w3 := add_message WARNING
                  (Exception_msg (Py.lit "User not allowed to perform this action"))
                  (add_log (Error_not_allowed_to_see_upload_content (user request))
                     w2) in
      (Ok (render_form (class_form w3)), w3).
Proof.
  intros Hsu. cbv zeta. unfold get, get_try. rewrite Hsu.
  unfold mbind, M_bind, bind, modify, raise, ret. cbn beta iota.
  destruct (check_upload_allow D w request) as [allowed w1]. cbn [fst snd].
  destruct allowed, (is_user_in_groups D (user request) upload_groups);
    reflexivity.
Qed.

Lemma check_upload_allow_staff (w : World) (request : Request) :
  is_staff (user request) = true → check_upload_allow D w request = (true, w).
Proof.
  intros Hstaff.
  rewrite check_upload_allow_eq, days_to_next_upload_spec, Hstaff. reflexivity.
Qed.

(** A GET by a superuser. *)
Lemma get_superuser (w : World) (request : Request) :
  is_superuser (user request) = true →
  get D w request
  = (Ok (render_form_uploads enabled_form (order_by_timestamp_desc (uploads w))),
     set_class_form enabled_form w).
Proof.
  intros Hsu. unfold get, get_try. rewrite Hsu. reflexivity.
Qed.

End GetFacts.

(** X12. The upload list a GET renders holds every row of the upload table
    exactly once, latest first. *)
Theorem uploads_listed_latest_first (us : list Upload) :
  order_by_timestamp_desc us ≡ₚ us
  ∧ StronglySorted (λ a b, timestamp b ≤ timestamp a) (order_by_timestamp_desc us).
Proof.
  induction us as [|u us [IHp IHs]]; [split; [reflexivity|constructor]|].
  change (order_by_timestamp_desc (u :: us))
    with (insert_by_timestamp u (order_by_timestamp_desc us)).
  split.
  - rewrite insert_by_timestamp_perm, IHp. reflexivity.
  - apply insert_by_timestamp_sorted, IHs.
Qed.

(** X14. A GET always answers and never writes to the project or upload
    tables; the page lists the uploads exactly when the actor is a superuser
    or belongs to a permitted group. *)
Theorem get_lists_uploads_for_permitted (D : Collaborators) (w : World)
    (request : Request) :
  ∃ response,
    fst (get D w request) = Ok response
    ∧ template D response = "upload.html"%string
    ∧ ctx_uploads D (context D response)
      = (if is_superuser (user request)
            || is_user_in_groups D (user request) upload_groups
         then Some (order_by_timestamp_desc (uploads w)) else None)
    ∧ projects (snd (get D w request)) = projects w
    ∧ uploads (snd (get D w request)) = uploads w.
Proof.
  destruct (is_superuser (user request)) eqn:Hsu.
  - rewrite (get_superuser D w request Hsu). eexists. repeat split; reflexivity.
  - rewrite (get_not_superuser D w request Hsu). cbv zeta.
    destruct (check_upload_allow_frame D w request) as (Hp & Hu & _).
    destruct (fst (check_upload_allow D w request)),
      (is_user_in_groups D (user request) upload_groups);
      eexists; cbn; rewrite ?Hp, ?Hu; repeat split; reflexivity.
Qed.

(** X13. The two handlers gate a superuser differently. Within the
    cooldown a superuser who is not staff is served by GET — fields enabled,
    upload list shown, no message — and refused by POST, with the disabled
    form and the cadence warning. *)
Theorem superuser_gated_by_post_only (D : Collaborators) (w : World)
    (request : Request) (t : Z) :
  is_superuser (user request) = true →
  is_staff (user request) = false →
  last_upload_timestamp (uploads w) = Some t →
  replace_midnight (now w) ≤ t + (UPLOAD_ALLOWED_AFTER_DAYS D - 1) * DAY →
  (fst (get D w request)
   = Ok (render_form_uploads enabled_form (order_by_timestamp_desc (uploads w)))
   ∧ messages (snd (get D w request)) = messages w)
  ∧ (fst (post D w request) = Ok (render_form disabled_form)
     ∧ ∃ days, 0 < days
         ∧ messages (snd (post D w request))
           = messages w ++ [(WARNING, Next_upload_possible_after days)]).
Proof.
  intros Hsu Hstaff Hlast Hmid. split.
  - rewrite (get_superuser D w request Hsu). split; reflexivity.
  - unfold post, post_allowed.
    rewrite check_upload_allow_eq, days_to_next_upload_spec, Hstaff, Hlast.
    pose proof (days_remaining_pos_iff t (UPLOAD_ALLOWED_AFTER_DAYS D) (now w))
      as Hpos.
    unfold replace_midnight in Hmid.
    destruct (Z.ltb_spec 0 (days_remaining t (UPLOAD_ALLOWED_AFTER_DAYS D) (now w)))
      as [Hdays|]; [|lia].
    split; [reflexivity|]. eexists. split; [exact Hdays|reflexivity].
Qed.

(** X15. The two file fields are switched on the one form the class
    shares, and a GET that passes the gate does not switch them back: after
    a GET refused by the cadence gate, the next GET by a staff member of a
    permitted group — whom the gate always admits — still shows both fields
    disabled. *)
Theorem get_disabled_fields_leak (D : Collaborators) (w : World)
    (refused permitted : Request) :
  is_superuser (user refused) = false →
  fst (check_upload_allow D w refused) = false →
  is_superuser (user permitted) = false →
  is_staff (user permitted) = true →
  is_user_in_groups D (user permitted) upload_groups = true →
  class_form (snd (get D w refused)) = disabled_form
  ∧ fst (get D (snd (get D w refused)) permitted)
    = Ok (render_form_uploads disabled_form (order_by_timestamp_desc (uploads w))).
Proof.
  intros Hsu1 Hrefused Hsu2 Hstaff Hgroups.
  destruct (check_upload_allow_frame D w refused) as (_ & Hu & _).
  assert (class_form (snd (get D w refused)) = disabled_form
          ∧ uploads (snd (get D w refused)) = uploads w) as [Hform Hups].
  { rewrite (get_not_superuser D w refused Hsu1). cbv zeta. rewrite Hrefused.
    destruct (is_user_in_groups D (user refused) upload_groups); cbn;
      rewrite Hu; split; reflexivity. }
  split; [exact Hform|].
  rewrite (get_not_superuser D _ permitted Hsu2). cbv zeta.
  rewrite (check_upload_allow_staff D (snd (get D w refused)) permitted Hstaff).
  cbn [fst snd]. rewrite Hgroups, Hform, Hups. reflexivity.
Qed.

(** ** Worked examples for the further properties *)

Module MoreExamples.

Import Example.

Ltac by_computation := reflexivity.
Ltac by_decision := apply (bool_decide_unpack _); vm_compute; exact I.
Ltac by_comparison := vm_compute; discriminate.

(** The records of the example installation print their order number in
    the first field, whatever the number. *)
Lemma record_str_prints_order_number (source : string) (n : Z) :
  prints_order_number (record_str source n) n.
Proof.
  pose proof (prints_order_number_decimal "{" "}" (Py.lit "order_number")
                [" "%char] (Py.lit ", source: " ++ Py.lit source) n) as H.
  unfold record_str, Py.decimal in *.
  replace (Py.lit "{order_number: " ++ Py.lit (pretty n) ++ Py.lit ", source: "
           ++ Py.lit source ++ Py.lit "}")
    with ("{"%char
          :: (Py.lit "order_number"
              ++ ":"%char :: ([" "%char] ++ Py.lit (pretty n))
              ++ Py.lit ", source: " ++ Py.lit source) ++ ["}"%char]).
  - apply H; [by_decision | by_decision | repeat constructor |].
    right. eexists. reflexivity.
  - simpl. rewrite <- !app_assoc. reflexivity.
Qed.

(** C1, the specification's end-to-end example: the store holds 101, 102
    and 103 and the records uploaded carry the order numbers 101 (C11) and
    104 (BW); projects 102 and 103 are deleted, 101 survives and 104 is
    there. *)
Lemma reconciliation_example :
  let after := projects (snd (post healthy w0 (upload_request alice "101" "104"))) in
  deleted store_merged after = stale ([104] ++ [101]) store_merged
  ∧ after = filter (λ p, order_number p ∈ [104] ++ [101]) store_merged
  ∧ ∀ p, p ∈ store_merged → (p ∈ after ↔ order_number p ∈ [104] ++ [101]).
Proof.
  apply (reconciliation_deletes_exactly_stale healthy (λ n, n) (λ n, n) w0
           (upload_request alice "101" "104")
           (file "c11.xlsx" "101") (file "bw.xlsx" "104")
           [101] [] [104] [] 2%nat store_merged);
    try by_computation.
  - constructor; [|constructor].
    exists "{"%char, "}"%char, (Py.lit "order_number"), (Py.lit " 101"),
      (Py.lit ", source: c11").
    repeat split; first [by_computation | by_decision | right; eexists; reflexivity].
  - constructor; [|constructor].
    exists "{"%char, "}"%char, (Py.lit "order_number"), (Py.lit " 104"),
      (Py.lit ", source: bw").
    repeat split; first [by_computation | by_decision | right; eexists; reflexivity].
  - by_decision.
Defined.

(** X1: three days after an upload, with a cooldown of seven days, the
    gate is shut, and midnight has not passed the sixth day. *)
Lemma cadence_reopens_at_midnight_example :
  fst (check_upload_allow healthy w_three_days_later
         (upload_request alice "101" "104")) = true
  ↔ (20000 * DAY + DAY / 2 - 3 * DAY) + (7 - 1) * DAY
    < replace_midnight (now w_three_days_later).
Proof.
  apply (cadence_reopens_at_midnight healthy w_three_days_later
           (upload_request alice "101" "104")); by_computation.
Defined.

(** X2: on that day the upload is refused, and 4 days, no more than 7, are
    announced. *)
Lemma cadence_wait_bounds_example :
  fst (check_upload_allow healthy w_three_days_later
         (upload_request alice "101" "104")) = false
  ∧ days_to_next_upload healthy w_three_days_later
      (upload_request alice "101" "104") ≤ 7.
Proof.
  destruct (cadence_wait_bounds healthy w_three_days_later
              (upload_request alice "101" "104")
              (20000 * DAY + DAY / 2 - 3 * DAY) eq_refl eq_refl)
    as (Hrefused & _ & Hdays).
  split; [apply Hrefused|apply Hdays]; by_comparison.
Defined.

(** X3: an upload with a corrupt BW file fails, and still shuts the gate
    for the next request. *)
Lemma any_upload_starts_cooldown_example :
  fst (check_upload_allow healthy
         (snd (post healthy w0 (upload_request alice "101" "corrupt")))
         (upload_request alice "101" "104")) = false.
Proof.
  apply (any_upload_starts_cooldown healthy w0 _
           (upload_request alice "101" "corrupt"));
    [by_computation | by_computation | by_comparison | by_computation].
Defined.

(** X4: a superuser who is not staff posts within the cooldown. *)
Lemma post_cadence_binds_superuser_example :
  post healthy w_three_days_later (upload_request root "101" "104")
  = (Ok (render_form disabled_form),
     add_message WARNING
       (Next_upload_possible_after
          (days_remaining (20000 * DAY + DAY / 2 - 3 * DAY) 7
             (now w_three_days_later))) w_three_days_later).
Proof.
  apply (post_cadence_binds_superuser healthy w_three_days_later
           (upload_request root "101" "104"));
    [by_computation | by_computation | by_comparison].
Defined.

(** X5: the order number of a row printed with field names. *)
Lemma row_order_number_first_field_example :
  row_order_number (Py.lit "{order_number: 101, source: c11}") = Ok 101.
Proof.
  refine (row_order_number_first_field "{" "}" (Py.lit "order_number")
            (Py.lit " 101") (Py.lit ", source: c11") _ _ _ _ _);
    try by_decision.
  right. eexists. reflexivity.
Defined.

(** X6: a row that is just the number. *)
Lemma row_order_number_no_colon_example :
  row_order_number (Py.lit "101")
  = Raise (IndexError (Py.lit "list index out of range")).
Proof. apply row_order_number_no_colon. by_decision. Defined.

(** X7: in the end-to-end example, project 101 survives because a row
    names it. *)
Lemma survivors_have_an_uploaded_row_example :
  {| pk := 1; order_number := 101 |}
    ∈ projects (snd (post healthy w0 (upload_request alice "101" "104")))
  ↔ ∃ row, row ∈ (record_str "bw" <$> [104]) ++ (record_str "c11" <$> [101])
           ∧ row_order_number row = Ok 101.
Proof.
  apply (survivors_have_an_uploaded_row healthy w0
           (upload_request alice "101" "104")
           (file "c11.xlsx" "101") (file "bw.xlsx" "104")
           [101] [] [104] [] 2%nat store_merged [104; 101]);
    try by_computation; by_decision.
Defined.

(** X8: two files without a record wipe the three stored projects. *)
Lemma empty_upload_deletes_every_project_example :
  projects (snd (post healthy w0 (upload_request alice "" ""))) = []
  ∧ fst (post healthy w0 (upload_request alice "" ""))
    = Ok (render_statistics (D := healthy) (Some 0%nat) [[]] [[]]).
Proof.
  apply (empty_upload_deletes_every_project healthy w0
           (upload_request alice "" "")
           (file "c11.xlsx" "") (file "bw.xlsx" "") [[]] [[]] 0%nat
           store_101_102_103); by_computation.
Defined.

(** X9: records printed as bare numbers: nothing is deleted. *)
Lemma unreadable_order_numbers_example :
  let e := IndexError (Py.lit "list index out of range") in
  (e = IndexError (Py.lit "list index out of range") ∨ ∃ field, e = ValueError field)
  ∧ projects (snd (post bare_strings w0 (upload_request alice "101" "104")))
    = store_merged
  ∧ messages (snd (post bare_strings w0 (upload_request alice "101" "104")))
    = messages (snd (check_upload_allow bare_strings w0
                       (upload_request alice "101" "104")))
      ++ [(ERROR, Error_while_uploading_files e)]
  ∧ log (snd (post bare_strings w0 (upload_request alice "101" "104")))
    = log w0 ++ [Error_files_upload e alice]
  ∧ fst (post bare_strings w0 (upload_request alice "101" "104"))
    = Ok (render_statistics (D := bare_strings) (Some 2%nat) [] []).
Proof.
  apply (unreadable_order_numbers_delete_nothing bare_strings w0
           (upload_request alice "101" "104")
           (file "c11.xlsx" "101") (file "bw.xlsx" "104")
           [101] [] [104] [] 2%nat store_merged); by_computation.
Defined.

(** X10: the deletion of project 103 is interrupted. *)
Lemma interrupted_deletion_example :
  fst (post interrupted_103 w0 (upload_request alice "101" "104"))
  = Raise (NonException (Py.lit "KeyboardInterrupt"))
  ∧ read_successful
      <$> last (uploads (snd (post interrupted_103 w0
                                (upload_request alice "101" "104")))) = Some true
  ∧ length (uploads (snd (post interrupted_103 w0
                            (upload_request alice "101" "104"))))
    = S (length (uploads w0))
  ∧ messages (snd (post interrupted_103 w0 (upload_request alice "101" "104")))
    = messages (snd (check_upload_allow interrupted_103 w0
                       (upload_request alice "101" "104"))).
Proof.
  apply (interrupted_deletion_propagates interrupted_103 w0
           (upload_request alice "101" "104")
           (file "c11.xlsx" "101") (file "bw.xlsx" "104")
           [101] [] [104] [] 2%nat store_merged [104; 101]); by_computation.
Defined.

(** X11: the same run, read the other way round. *)
Lemma post_raises_only_example :
  (reaches_try interrupted_103 w0 (upload_request alice "101" "104") = true
   ∧ is_Exception (NonException (Py.lit "KeyboardInterrupt")) = false
   ∧ read_successful
       <$> last (uploads (snd (post interrupted_103 w0
                                 (upload_request alice "101" "104")))) = Some true)
  ∨ (reaches_try interrupted_103 w0 (upload_request alice "101" "104") = false
     ∧ form_is_valid interrupted_103 (upload_request alice "101" "104") = true
     ∧ ∃ key, NonException (Py.lit "KeyboardInterrupt") = MultiValueDictKeyError key).
Proof.
  apply (post_raises_only interrupted_103 w0 (upload_request alice "101" "104")).
  by_computation.
Defined.

(** X13: the superuser of X4, served by [get] on the same day. *)
Lemma superuser_gated_by_post_only_example :
  (fst (get healthy w_three_days_later (upload_request root "101" "104"))
   = Ok (render_form_uploads enabled_form
           (order_by_timestamp_desc (uploads w_three_days_later)))
   ∧ messages (snd (get healthy w_three_days_later
                      (upload_request root "101" "104")))
     = messages w_three_days_later)
  ∧ (fst (post healthy w_three_days_later (upload_request root "101" "104"))
     = Ok (render_form disabled_form)
     ∧ ∃ days, 0 < days
         ∧ messages (snd (post healthy w_three_days_later
                            (upload_request root "101" "104")))
           = messages w_three_days_later
             ++ [(WARNING, Next_upload_possible_after days)]).
Proof.
  apply (superuser_gated_by_post_only healthy w_three_days_later
           (upload_request root "101" "104")
           (20000 * DAY + DAY / 2 - 3 * DAY));
    [by_computation | by_computation | by_computation | by_comparison].
Defined.

(** X15: Alice is refused within the cooldown; a staff member who looks at
    the page next finds both fields disabled. *)
Lemma get_disabled_fields_leak_example :
  class_form (snd (get healthy w_three_days_later (upload_request alice "101" "104")))
  = disabled_form
  ∧ fst (get healthy
           (snd (get healthy w_three_days_later (upload_request alice "101" "104")))
           (upload_request staff_alice "101" "104"))
    = Ok (render_form_uploads disabled_form
            (order_by_timestamp_desc (uploads w_three_days_later))).
Proof.
  apply (get_disabled_fields_leak healthy w_three_days_later
           (upload_request alice "101" "104")
           (upload_request staff_alice "101" "104")); by_computation.
Defined.

End MoreExamples.
